(** * NewsRank Python SDK: transport core, error taxonomy and resource façades

    A shallow embedding of [newsrank/_exceptions.py], [newsrank/_client.py],
    the resource modules and [newsrank/__init__.py], followed by the
    properties of the transport layer.

    Conventions of the embedding:
    - Python values that travel through the client (query parameter values,
      decoded JSON, exception attributes) are terms of [Value];
    - Python dictionaries keyed by strings are [gmap string _];
    - a raised exception is the [Raise] branch of [Exc];
    - the [httpx] connection pools live in a heap indexed by object identity,
      so that a pool shared between the caller and the client is one object;
    - an [async def] is a [Coro]: a tree whose nodes are its [await] points;
    - a call that may leave arguments out is a [CallSite], bound to the
      parameters of the method as its [def] line says. *)

From Stdlib Require Import ZArith QArith Ascii String DecimalString.
From stdpp Require Import base option gmap strings list.

#[local] Set Warnings "-register-all".
#[local] Open Scope Z_scope.

(* ------------------------------------------------------------------ *)
(** ** Python values *)

(** [VFloat] carries the IEEE-754 bit pattern: floats are only passed
    through, never computed with. *)
Inductive Value : Type :=
  | VNone
  | VBool (b : bool)
  | VInt (z : Z)
  | VFloat (bits : Z)
  | VStr (s : string)
  | VList (l : list Value)
  | VDict (d : gmap string Value).

(** [v is not None] *)
#[global] Instance Value_is_not_None_dec (v : Value) : Decision (v ≠ VNone).
Proof.
  refine (match v with VNone => right _ | _ => left _ end); congruence.
Defined.

(** [str(n)] / [f"{n}"] for an [int]: decimal digits, with a minus sign. *)
Definition str_int (z : Z) : string := NilZero.string_of_int (Z.to_int z).

(** [c in chars] for a one-character [c]. *)
Fixpoint char_in (c : ascii) (chars : string) : bool :=
  match chars with
  | EmptyString => false
  | String d rest => if Ascii.eqb c d then true else char_in c rest
  end.

(** [s.rstrip(chars)]: drop the longest suffix made of characters of
    [chars]. *)
Fixpoint rstrip (chars : string) (s : string) : string :=
  match s with
  | EmptyString => EmptyString
  | String c rest =>
      match rstrip chars rest with
      | EmptyString =>
          if char_in c chars then EmptyString else String c EmptyString
      | kept => String c kept
      end
  end.

(** [x or default] on [Optional[str]]: [None] and the empty string are
    falsy. *)
Definition str_or (x : option string) (dflt : string) : string :=
  match x with
  | None => dflt
  | Some EmptyString => dflt
  | Some s => s
  end.

(** [x or {}] on [Optional[Dict]]: [None] and the empty dict are falsy. *)
Definition dict_or_empty {V} (x : option (gmap string V)) : gmap string V :=
  match x with
  | None => ∅
  | Some d => d
  end.

(** [d.get(key, default)] *)
Definition dict_get {V} (d : gmap string V) (key : string) (dflt : V) : V :=
  default dflt (d !! key).

(* ------------------------------------------------------------------ *)
(** ** Error taxonomy ([_exceptions.py]) *)

(** The classes of the package, each declared with one base class. *)
Inductive ErrorKind : Type :=
  | NewsRankError
  | AuthenticationError
  | PermissionError
  | NotFoundError
  | RateLimitError
  | ServerError.

(** Exception classes in play: the built-in [Exception], classes defined
    outside the package (raised by [httpx] or the JSON decoder, all derived
    from [Exception]), and the package's own. *)
Inductive PyClass : Type :=
  | Exception
  | External (qualname : string)
  | Pkg (kind : ErrorKind).

#[global] Instance ErrorKind_eq_dec : EqDecision ErrorKind.
Proof. solve_decision. Defined.

#[global] Instance PyClass_eq_dec : EqDecision PyClass.
Proof. solve_decision. Defined.

(** The base named in each [class C(Base)] statement. *)
Definition bases (c : PyClass) : option PyClass :=
  match c with
  | Exception => None
  | External _ => Some Exception
  | Pkg NewsRankError => Some Exception
  | Pkg AuthenticationError => Some (Pkg NewsRankError)
  | Pkg PermissionError => Some (Pkg NewsRankError)
  | Pkg NotFoundError => Some (Pkg NewsRankError)
  | Pkg RateLimitError => Some (Pkg NewsRankError)
  | Pkg ServerError => Some (Pkg NewsRankError)
  end.

(** Method resolution order under single inheritance: the class, then the
    chain of its bases. [depth] bounds the walk. *)
Fixpoint mro_upto (depth : nat) (c : PyClass) : list PyClass :=
  c :: match depth with
       | O => []
       | S d => match bases c with
                | Some b => mro_upto d b
                | None => []
                end
       end.

(** No chain of [bases] is longer than three classes. *)
Definition mro (c : PyClass) : list PyClass := mro_upto 3 c.

Definition issubclass (c d : PyClass) : bool := bool_decide (d ∈ mro c).

(** An exception object: its class, [args] as set by
    [BaseException.__init__], and its instance [__dict__]. *)
Record Instance : Type := mkInstance {
  ob_type : PyClass;
  ob_args : list Value;
  ob_dict : gmap string Value;
}.

Definition isinstance (o : Instance) (c : PyClass) : bool :=
  issubclass (ob_type o) c.

(** [cls.__new__(cls)] *)
Definition new_instance (c : PyClass) : Instance :=
  {| ob_type := c; ob_args := []; ob_dict := ∅ |}.

(** [self.name = v] *)
Definition setattr (self : Instance) (name : string) (v : Value) : Instance :=
  {| ob_type := ob_type self;
     ob_args := ob_args self;
     ob_dict := <[name := v]> (ob_dict self) |}.

(** [self.name]; [None] when the attribute is missing (an
    [AttributeError] in Python). *)
Definition getattr (self : Instance) (name : string) : option Value :=
  ob_dict self !! name.

(** [Exception.__init__(self, *args)] *)
Definition Exception___init__ (self : Instance) (args : list Value) : Instance :=
  {| ob_type := ob_type self; ob_args := args; ob_dict := ob_dict self |}.

(** [NewsRankError.__init__(self, message, *, status_code=None, body=None)] *)
Definition NewsRankError___init__
    (self : Instance) (message status_code body : Value) : Instance :=
  let self := Exception___init__ self [message] in
  let self := setattr self "message" message in
  let self := setattr self "status_code" status_code in
  setattr self "body" body.

(** Which [__init__] a call [cls(...)] runs: no subclass of the package
    defines its own, so the MRO lookup stops at [NewsRankError]. *)
Definition defines___init__ (c : PyClass) : bool :=
  match c with
  | Exception | Pkg NewsRankError => true
  | _ => false
  end.

(** [exc_cls(message, status_code=status, body=body)] for a class of the
    package. *)
Definition call_class (exc_cls : ErrorKind) (message status_code body : Value)
    : Instance :=
  match filter (λ c, defines___init__ c = true) (mro (Pkg exc_cls)) with
  | Pkg NewsRankError :: _ =>
      NewsRankError___init__ (new_instance (Pkg exc_cls)) message status_code body
  | _ => Exception___init__ (new_instance (Pkg exc_cls)) [message]
  end.

(** Results of code that may raise. *)
Inductive Exc (A : Type) : Type :=
  | Raise (e : Instance)
  | Return (a : A).
Arguments Raise {A} e.
Arguments Return {A} a.

#[global] Instance Exc_ret : MRet Exc := λ A a, Return a.
#[global] Instance Exc_bind : MBind Exc := λ A B f m,
  match m with
  | Raise e => Raise e
  | Return a => f a
  end.

(** [try: body / except cls: handler]: the handler runs when the raised
    object is an instance of [cls]; any other exception propagates. *)
Definition try_except {A} (cls : PyClass) (body : Exc A)
    (handler : Instance → Exc A) : Exc A :=
  match body with
  | Return a => Return a
  | Raise e => if isinstance e cls then handler e else Raise e
  end.

(* ------------------------------------------------------------------ *)
(** ** The [httpx] objects the client talks to

    [httpx] is a dependency, not part of the package: its objects are
    modelled by the part of their interface that [_client.py] uses. *)

(** The arguments of one [client.request(method, url, params=, headers=)]. *)
Record Request : Type := mkRequest {
  req_method : string;
  req_url : string;
  req_params : gmap string Value;
  req_headers : gmap string string;
}.

(** An [httpx.Response]: [status_code], [content] (the body bytes), [text]
    (the decoded body) and the outcome of [json()], [None] standing for the
    decoder raising. *)
Record Response : Type := mkResponse {
  status_code : Z;
  content : list Byte.byte;
  text : string;
  json_result : option Value;
}.

(** [response.is_success]: [httpx] defines it as [200 <= status_code <= 299]. *)
Definition is_success (response : Response) : bool :=
  bool_decide (200 ≤ status_code response ≤ 299).

Definition JSONDecodeError : Instance :=
  Exception___init__ (new_instance (External "json.JSONDecodeError")) [].

(** [response.json()] *)
Definition Response_json (response : Response) : Exc Value :=
  match json_result response with
  | Some v => Return v
  | None => Raise JSONDecodeError
  end.

(* ------------------------------------------------------------------ *)
(** ** Error building and parameter cleaning ([_client.py]) *)

Definition DEFAULT_BASE_URL : string := "https://newsrank.ai/api/v1".
Definition DEFAULT_TIMEOUT : Q := 30.
Definition USER_AGENT : string := "newsrank-python/0.1.0".

Definition _STATUS_MAP : gmap Z ErrorKind :=
  {[ 401 := AuthenticationError;
     403 := PermissionError;
     404 := NotFoundError;
     429 := RateLimitError ]}.

(** [_build_error(response)]. The only call of the [try] block that can
    raise is [response.json()], which precedes every assignment, so the
    handler sees [message] as initialised. *)
Definition _build_error (response : Response) : Exc Instance :=
  let status := status_code response in
  let message := VStr ("API request failed with status " +:+ str_int status) in
  '(body, message) ←
    try_except Exception
      (body ← Response_json response;
       match body with
       | VDict d =>
           mret (body, dict_get d "error" (dict_get d "message" message))
       | _ => mret (body, message)
       end)
      (λ _, mret (VStr (text response), message));
  match _STATUS_MAP !! status with
  | Some exc_cls => mret (call_class exc_cls message (VInt status) body)
  | None =>
      if bool_decide (500 ≤ status < 600)
      then mret (call_class ServerError message (VInt status) body)
      else mret (call_class NewsRankError message (VInt status) body)
  end.

(** [_clean_params(params)] *)
Definition _clean_params (params : gmap string Value) : gmap string Value :=
  filter (λ kv, kv.2 ≠ VNone) params.

(* ------------------------------------------------------------------ *)
(** ** Connection pools and the heap they live in *)

(** Python objects are shared by reference: a pool is named by its
    identity. *)
Definition PoolId : Type := positive.

(** What a pool answers to a request, given how many times it has been
    closed and what it has sent so far: a response, or a connection-level
    fault raised by the networking layer. *)
Definition Transport : Type := nat → list Request → Request → Exc Response.

(** The state of one [httpx.Client] / [httpx.AsyncClient]. *)
Record Pool : Type := mkPool {
  pool_timeout : Q;
  pool_headers : gmap string string;
  pool_transport : Transport;
  pool_sent : list Request;
  pool_closes : nat;
}.

(** The heap of pools, and the network a freshly built pool is wired to. *)
Record World : Type := mkWorld {
  pools : gmap PoolId Pool;
  network : Transport;
}.

(** Code that reads and updates the heap and may raise. *)
Definition M (A : Type) : Type := World → Exc A * World.

#[global] Instance M_ret : MRet M := λ A a σ, (Return a, σ).
#[global] Instance M_bind : MBind M := λ A B f m σ,
  match m σ with
  | (Raise e, σ') => (Raise e, σ')
  | (Return a, σ') => f a σ'
  end.

(** [raise e] *)
Definition raise {A} (e : Instance) : M A := λ σ, (Raise e, σ).

(** A computation that does not touch the heap. *)
Definition pure {A} (r : Exc A) : M A := λ σ, (r, σ).

(** Every reference held by running code points to a live object; the
    heap lookup of an unknown identity has no Python counterpart and is
    answered by an error that leaves the heap alone. *)
Definition ReferenceError : Instance :=
  Exception___init__ (new_instance (External "ReferenceError")) [].

(** [httpx.Client(timeout=timeout, headers=headers)]: a new pool. *)
Definition httpx_Client (timeout : Q) (headers : gmap string string) : M PoolId :=
  λ σ,
    let p := fresh (dom (pools σ)) in
    let pool := {| pool_timeout := timeout;
                   pool_headers := headers;
                   pool_transport := network σ;
                   pool_sent := [];
                   pool_closes := O |} in
    (Return p, {| pools := <[p := pool]> (pools σ); network := network σ |}).

(** [client.request(method, url, params=params, headers=headers)]: the
    request goes out through the pool, which records it. *)
Definition httpx_Client_request (p : PoolId) (req : Request) : M Response :=
  λ σ,
    match pools σ !! p with
    | Some pool =>
        (pool_transport pool (pool_closes pool) (pool_sent pool) req,
         {| pools := <[p := {| pool_timeout := pool_timeout pool;
                               pool_headers := pool_headers pool;
                               pool_transport := pool_transport pool;
                               pool_sent := pool_sent pool ++ [req];
                               pool_closes := pool_closes pool |}]> (pools σ);
            network := network σ |})
    | None => (Raise ReferenceError, σ)
    end.

(** [client.close()] / [await client.aclose()] *)
Definition httpx_Client_close (p : PoolId) : M unit :=
  λ σ,
    match pools σ !! p with
    | Some pool =>
        (Return (),
         {| pools := <[p := {| pool_timeout := pool_timeout pool;
                               pool_headers := pool_headers pool;
                               pool_transport := pool_transport pool;
                               pool_sent := pool_sent pool;
                               pool_closes := S (pool_closes pool) |}]> (pools σ);
            network := network σ |})
    | None => (Raise ReferenceError, σ)
    end.

(* ------------------------------------------------------------------ *)
(** ** Synchronous client *)

Module SyncClient.

Record t : Type := mk {
  _api_key : string;
  _base_url : string;
  _owns_client : bool;
  _client : PoolId;
}.

(** [SyncClient(api_key, *, base_url=, timeout=, httpx_client=)] *)
Definition __init__ (api_key : string) (base_url : option string)
    (timeout : Q) (httpx_client : option PoolId) : M t :=
  let base := rstrip "/" (str_or base_url DEFAULT_BASE_URL) in
  let owns := bool_decide (httpx_client = None) in
  client ←
    match httpx_client with
    | Some p => mret p
    | None =>
        httpx_Client timeout
          {[ "User-Agent" := USER_AGENT; "Accept" := "application/json" ]}
    end;
  mret {| _api_key := api_key;
          _base_url := base;
          _owns_client := owns;
          _client := client |}.

Definition request (self : t) (method path : string)
    (params : option (gmap string Value)) (auth : bool) : M Value :=
  let url := _base_url self +:+ path in
  let headers : gmap string string := ∅ in
  let headers :=
    if auth
    then <["Authorization" := "Bearer " +:+ _api_key self]> headers
    else headers in
  response ←
    httpx_Client_request (_client self)
      {| req_method := method;
         req_url := url;
         req_params := _clean_params (dict_or_empty params);
         req_headers := headers |};
  if negb (is_success response) then
    e ← pure (_build_error response);
    raise e
  else if bool_decide (status_code response = 204)
          || bool_decide (content response = []) then
    mret VNone
  else
    pure (Response_json response).

Definition get (self : t) (path : string)
    (params : option (gmap string Value)) (auth : bool) : M Value :=
  request self "GET" path params auth.

Definition close (self : t) : M unit :=
  if _owns_client self then httpx_Client_close (_client self) else mret ().

Definition __enter__ (self : t) : M t := mret self.

Definition __exit__ (self : t) : M unit := close self.

End SyncClient.

(** [with mgr as v: body]: [__exit__] runs on every way out of the body;
    it returns [None] here, so an exception of the body propagates. *)
Definition with_statement {T R} (enter : T → M T) (exit : T → M unit)
    (mgr : T) (body : T → M R) : M R :=
  λ σ,
    match enter mgr σ with
    | (Raise e, σ1) => (Raise e, σ1)
    | (Return v, σ1) =>
        match body v σ1 with
        | (Return r, σ2) =>
            match exit mgr σ2 with
            | (Return _, σ3) => (Return r, σ3)
            | (Raise e, σ3) => (Raise e, σ3)
            end
        | (Raise e, σ2) =>
            match exit mgr σ2 with
            | (Return _, σ3) => (Raise e, σ3)
            | (Raise e', σ3) => (Raise e', σ3)
            end
        end
    end.

(* ------------------------------------------------------------------ *)
(** ** Coroutines *)

(** An [async def] body unfolded up to its [await] points on the pool:
    either it is done (returned or raised), or it is suspended on a pool
    operation and resumes with that operation's outcome. *)
Inductive Coro (A : Type) : Type :=
  | Done (r : Exc A)
  | AwaitRequest (p : PoolId) (req : Request) (k : Exc Response → Coro A)
  | AwaitClose (p : PoolId) (k : Exc unit → Coro A).
Arguments Done {A} r.
Arguments AwaitRequest {A} p req k.
Arguments AwaitClose {A} p k.

Fixpoint Coro_bind {A B} (f : A → Coro B) (c : Coro A) : Coro B :=
  match c with
  | Done (Return a) => f a
  | Done (Raise e) => Done (Raise e)
  | AwaitRequest p req k => AwaitRequest p req (λ r, Coro_bind f (k r))
  | AwaitClose p k => AwaitClose p (λ r, Coro_bind f (k r))
  end.

#[global] Instance Coro_ret : MRet Coro := λ A a, Done (Return a).
#[global] Instance Coro_mbind : MBind Coro := @Coro_bind.

(** [await client.request(...)] and [await client.aclose()] *)
Definition await_request (p : PoolId) (req : Request) : Coro Response :=
  AwaitRequest p req Done.
Definition await_aclose (p : PoolId) : Coro unit :=
  AwaitClose p Done.

(** The event loop driving one coroutine to completion: at each
    suspension the pool operation is carried out on the heap and the
    coroutine is resumed with its outcome. *)
Fixpoint run_until_complete {A} (c : Coro A) : M A :=
  match c with
  | Done r => pure r
  | AwaitRequest p req k =>
      λ σ, let '(r, σ') := httpx_Client_request p req σ in
           run_until_complete (k r) σ'
  | AwaitClose p k =>
      λ σ, let '(r, σ') := httpx_Client_close p σ in
           run_until_complete (k r) σ'
  end.

(* ------------------------------------------------------------------ *)
(** ** Asynchronous client *)

Module AsyncClient.

Record t : Type := mk {
  _api_key : string;
  _base_url : string;
  _owns_client : bool;
  _client : PoolId;
}.

(** [AsyncClient(api_key, *, base_url=, timeout=, httpx_client=)]; the
    constructor is a plain [def]. *)
Definition __init__ (api_key : string) (base_url : option string)
    (timeout : Q) (httpx_client : option PoolId) : M t :=
  let base := rstrip "/" (str_or base_url DEFAULT_BASE_URL) in
  let owns := bool_decide (httpx_client = None) in
  client ←
    match httpx_client with
    | Some p => mret p
    | None =>
        httpx_Client timeout
          {[ "User-Agent" := USER_AGENT; "Accept" := "application/json" ]}
    end;
  mret {| _api_key := api_key;
          _base_url := base;
          _owns_client := owns;
          _client := client |}.

Definition request (self : t) (method path : string)
    (params : option (gmap string Value)) (auth : bool) : Coro Value :=
  let url := _base_url self +:+ path in
  let headers : gmap string string := ∅ in
  let headers :=
    if auth
    then <["Authorization" := "Bearer " +:+ _api_key self]> headers
    else headers in
  response ←
    await_request (_client self)
      {| req_method := method;
         req_url := url;
         req_params := _clean_params (dict_or_empty params);
         req_headers := headers |};
  if negb (is_success response) then
    e ← Done (_build_error response);
    Done (Raise e)
  else if bool_decide (status_code response = 204)
          || bool_decide (content response = []) then
    mret VNone
  else
    Done (Response_json response).

Definition get (self : t) (path : string)
    (params : option (gmap string Value)) (auth : bool) : Coro Value :=
  request self "GET" path params auth.

Definition close (self : t) : Coro unit :=
  if _owns_client self then await_aclose (_client self) else mret ().

Definition __aenter__ (self : t) : Coro t := mret self.

Definition __aexit__ (self : t) : Coro unit := close self.

End AsyncClient.

(* ------------------------------------------------------------------ *)
(** ** Resource façades, blocking flavour

    Every method is one call of [self._client.get]. The definitions here
    are the method bodies, over parameters that are all bound; how a call
    site binds them (defaults, required parameters) comes with
    [bind_arguments] below. In each module [list] comes last, so that the
    name of the method does not hide the type of lists from its siblings.
    A dict display is written with the map-literal notation; its keys are
    pairwise distinct in every method. *)

(** An identifier interpolated into a path: [Union[int, str]]. *)
Inductive Ident : Type :=
  | IntId (n : Z)
  | StrId (s : string).

(** [f"{id}"] *)
Definition format_ident (id : Ident) : string :=
  match id with
  | IntId n => str_int n
  | StrId s => s
  end.

Module ArticlesResource.
Record t : Type := mk { _client : SyncClient.t }.

Definition get (self : t) (url_hash slug : Value) : M Value :=
  SyncClient.get (_client self) "/item"
    (Some {[ "url_hash" := url_hash; "slug" := slug ]}) true.

Definition content (self : t) (url_hash max_chars : Value) : M Value :=
  SyncClient.get (_client self) "/content"
    (Some {[ "url_hash" := url_hash; "max_chars" := max_chars ]}) true.

Definition list (self : t)
    (limit offset category keyword source
     content_status date_from date_to sort_by sort_order : Value)
    : M Value :=
  SyncClient.get (_client self) "/items"
    (Some {[ "limit" := limit;
             "offset" := offset;
             "category" := category;
             "keyword" := keyword;
             "source" := source;
             "content_status" := content_status;
             "date_from" := date_from;
             "date_to" := date_to;
             "sort_by" := sort_by;
             "sort_order" := sort_order ]})
    true.

End ArticlesResource.

Module StoriesResource.
Record t : Type := mk { _client : SyncClient.t }.

Definition ranked (self : t) (limit : Value) : M Value :=
  SyncClient.get (_client self) "/stories/ranked"
    (Some {[ "limit" := limit ]}) true.

Definition get (self : t) (id : Ident) : M Value :=
  SyncClient.get (_client self) ("/stories/" +:+ format_ident id) None true.

Definition developments (self : t) (id : Ident) : M Value :=
  SyncClient.get (_client self) ("/stories/" +:+ format_ident id +:+ "/developments") None true.

Definition updates (self : t) (id : Ident) (since_ms : Value) : M Value :=
  SyncClient.get (_client self) ("/stories/" +:+ format_ident id +:+ "/updates")
    (Some {[ "since_ms" := since_ms ]}) true.

Definition list (self : t) (limit offset category : Value) : M Value :=
  SyncClient.get (_client self) "/stories"
    (Some {[ "limit" := limit; "offset" := offset; "category" := category ]}) true.

End StoriesResource.

Module SearchResource.
Record t : Type := mk { _client : SyncClient.t }.

Definition articles (self : t) (q limit offset : Value) : M Value :=
  SyncClient.get (_client self) "/search"
    (Some {[ "q" := q; "limit" := limit; "offset" := offset ]}) true.

Definition full (self : t) (q limit offset : Value) : M Value :=
  SyncClient.get (_client self) "/search/full"
    (Some {[ "q" := q; "limit" := limit; "offset" := offset ]}) true.

Definition suggest (self : t) (q limit : Value) : M Value :=
  SyncClient.get (_client self) "/search/suggest"
    (Some {[ "q" := q; "limit" := limit ]}) true.

End SearchResource.

Module EntitiesResource.
Record t : Type := mk { _client : SyncClient.t }.

Definition trending (self : t) (limit : Value) : M Value :=
  SyncClient.get (_client self) "/entities/trending"
    (Some {[ "limit" := limit ]}) true.

Definition politicians (self : t) (limit offset : Value) : M Value :=
  SyncClient.get (_client self) "/entities/politicians"
    (Some {[ "limit" := limit; "offset" := offset ]}) true.

Definition get (self : t) (id : Ident) : M Value :=
  SyncClient.get (_client self) ("/entities/" +:+ format_ident id) None true.

Definition articles (self : t)
    (id : Ident) (limit offset : Value)
    : M Value :=
  SyncClient.get (_client self) ("/entities/" +:+ format_ident id +:+ "/articles")
    (Some {[ "limit" := limit; "offset" := offset ]}) true.

Definition list (self : t)
    (q type subcategory limit offset : Value)
    : M Value :=
  SyncClient.get (_client self) "/entities"
    (Some {[ "q" := q;
             "type" := type;
             "subcategory" := subcategory;
             "limit" := limit;
             "offset" := offset ]})
    true.

End EntitiesResource.

Module SourcesResource.
Record t : Type := mk { _client : SyncClient.t }.

Definition categories (self : t) : M Value :=
  SyncClient.get (_client self) "/categories" None true.

Definition tags (self : t) : M Value :=
  SyncClient.get (_client self) "/tags" None true.

Definition rankings (self : t) : M Value :=
  SyncClient.get (_client self) "/source-rankings" None true.

Definition list (self : t) : M Value :=
  SyncClient.get (_client self) "/sources" None true.

End SourcesResource.

Module GraphResource.
Record t : Type := mk { _client : SyncClient.t }.

Definition entity_network (self : t)
    (entity_id depth limit : Value)
    : M Value :=
  SyncClient.get (_client self) "/graph/entity-network"
    (Some {[ "entity_id" := entity_id; "depth" := depth; "limit" := limit ]}) true.

Definition story_entity (self : t) (story_id limit : Value) : M Value :=
  SyncClient.get (_client self) "/graph/story-entity"
    (Some {[ "story_id" := story_id; "limit" := limit ]}) true.

Definition topic_cluster (self : t) (topic_id limit : Value) : M Value :=
  SyncClient.get (_client self) "/graph/topic-cluster"
    (Some {[ "topic_id" := topic_id; "limit" := limit ]}) true.

End GraphResource.

Module MetaResource.
Record t : Type := mk { _client : SyncClient.t }.

Definition related (self : t) (url_hash limit : Value) : M Value :=
  SyncClient.get (_client self) "/related"
    (Some {[ "url_hash" := url_hash; "limit" := limit ]}) true.

Definition stats (self : t) : M Value :=
  SyncClient.get (_client self) "/stats" None true.

Definition version (self : t) : M Value :=
  SyncClient.get (_client self) "/version" None false.

Definition usage (self : t) (from_ms to_ms : Value) : M Value :=
  SyncClient.get (_client self) "/usage"
    (Some {[ "from_ms" := from_ms; "to_ms" := to_ms ]}) true.

End MetaResource.

(** The top-level blocking client ([__init__.py]). *)
Module NewsRank.

Record t : Type := mk {
  _client : SyncClient.t;
  articles : ArticlesResource.t;
  stories : StoriesResource.t;
  search : SearchResource.t;
  entities : EntitiesResource.t;
  sources : SourcesResource.t;
  graph : GraphResource.t;
  meta : MetaResource.t;
}.

(** [NewsRank(api_key, *, base_url=, timeout=, httpx_client=)] *)
Definition __init__ (api_key : string) (base_url : option string)
    (timeout : Q) (httpx_client : option PoolId) : M t :=
  client ← SyncClient.__init__ api_key base_url timeout httpx_client;
  mret {| _client := client;
          articles := ArticlesResource.mk client;
          stories := StoriesResource.mk client;
          search := SearchResource.mk client;
          entities := EntitiesResource.mk client;
          sources := SourcesResource.mk client;
          graph := GraphResource.mk client;
          meta := MetaResource.mk client |}.

Definition close (self : t) : M unit := SyncClient.close (_client self).

Definition __enter__ (self : t) : M t := mret self.

Definition __exit__ (self : t) : M unit := close self.

End NewsRank.

(* ------------------------------------------------------------------ *)
(** ** Resource façades, suspending flavour *)

Module AsyncArticlesResource.
Record t : Type := mk { _client : AsyncClient.t }.

Definition get (self : t) (url_hash slug : Value) : Coro Value :=
  AsyncClient.get (_client self) "/item"
    (Some {[ "url_hash" := url_hash; "slug" := slug ]}) true.

Definition content (self : t) (url_hash max_chars : Value) : Coro Value :=
  AsyncClient.get (_client self) "/content"
    (Some {[ "url_hash" := url_hash; "max_chars" := max_chars ]}) true.

Definition list (self : t)
    (limit offset category keyword source
     content_status date_from date_to sort_by sort_order : Value)
    : Coro Value :=
  AsyncClient.get (_client self) "/items"
    (Some {[ "limit" := limit;
             "offset" := offset;
             "category" := category;
             "keyword" := keyword;
             "source" := source;
             "content_status" := content_status;
             "date_from" := date_from;
             "date_to" := date_to;
             "sort_by" := sort_by;
             "sort_order" := sort_order ]})
    true.

End AsyncArticlesResource.

Module AsyncStoriesResource.
Record t : Type := mk { _client : AsyncClient.t }.

Definition ranked (self : t) (limit : Value) : Coro Value :=
  AsyncClient.get (_client self) "/stories/ranked"
    (Some {[ "limit" := limit ]}) true.

Definition get (self : t) (id : Ident) : Coro Value :=
  AsyncClient.get (_client self) ("/stories/" +:+ format_ident id) None true.

Definition developments (self : t) (id : Ident) : Coro Value :=
  AsyncClient.get (_client self) ("/stories/" +:+ format_ident id +:+ "/developments") None true.

Definition updates (self : t)
    (id : Ident) (since_ms : Value)
    : Coro Value :=
  AsyncClient.get (_client self) ("/stories/" +:+ format_ident id +:+ "/updates")
    (Some {[ "since_ms" := since_ms ]}) true.

Definition list (self : t) (limit offset category : Value) : Coro Value :=
  AsyncClient.get (_client self) "/stories"
    (Some {[ "limit" := limit; "offset" := offset; "category" := category ]}) true.

End AsyncStoriesResource.

Module AsyncSearchResource.
Record t : Type := mk { _client : AsyncClient.t }.

Definition articles (self : t) (q limit offset : Value) : Coro Value :=
  AsyncClient.get (_client self) "/search"
    (Some {[ "q" := q; "limit" := limit; "offset" := offset ]}) true.

Definition full (self : t) (q limit offset : Value) : Coro Value :=
  AsyncClient.get (_client self) "/search/full"
    (Some {[ "q" := q; "limit" := limit; "offset" := offset ]}) true.

Definition suggest (self : t) (q limit : Value) : Coro Value :=
  AsyncClient.get (_client self) "/search/suggest"
    (Some {[ "q" := q; "limit" := limit ]}) true.

End AsyncSearchResource.

Module AsyncEntitiesResource.
Record t : Type := mk { _client : AsyncClient.t }.

Definition trending (self : t) (limit : Value) : Coro Value :=
  AsyncClient.get (_client self) "/entities/trending"
    (Some {[ "limit" := limit ]}) true.

Definition politicians (self : t) (limit offset : Value) : Coro Value :=
  AsyncClient.get (_client self) "/entities/politicians"
    (Some {[ "limit" := limit; "offset" := offset ]}) true.

Definition get (self : t) (id : Ident) : Coro Value :=
  AsyncClient.get (_client self) ("/entities/" +:+ format_ident id) None true.

Definition articles (self : t)
    (id : Ident) (limit offset : Value)
    : Coro Value :=
  AsyncClient.get (_client self) ("/entities/" +:+ format_ident id +:+ "/articles")
    (Some {[ "limit" := limit; "offset" := offset ]}) true.

Definition list (self : t)
    (q type subcategory limit offset : Value)
    : Coro Value :=
  AsyncClient.get (_client self) "/entities"
    (Some {[ "q" := q;
             "type" := type;
             "subcategory" := subcategory;
             "limit" := limit;
             "offset" := offset ]})
    true.

End AsyncEntitiesResource.

Module AsyncSourcesResource.
Record t : Type := mk { _client : AsyncClient.t }.

Definition categories (self : t) : Coro Value :=
  AsyncClient.get (_client self) "/categories" None true.

Definition tags (self : t) : Coro Value :=
  AsyncClient.get (_client self) "/tags" None true.

Definition rankings (self : t) : Coro Value :=
  AsyncClient.get (_client self) "/source-rankings" None true.

Definition list (self : t) : Coro Value :=
  AsyncClient.get (_client self) "/sources" None true.

End AsyncSourcesResource.

Module AsyncGraphResource.
Record t : Type := mk { _client : AsyncClient.t }.

Definition entity_network (self : t)
    (entity_id depth limit : Value)
    : Coro Value :=
  AsyncClient.get (_client self) "/graph/entity-network"
    (Some {[ "entity_id" := entity_id; "depth" := depth; "limit" := limit ]}) true.

Definition story_entity (self : t) (story_id limit : Value) : Coro Value :=
  AsyncClient.get (_client self) "/graph/story-entity"
    (Some {[ "story_id" := story_id; "limit" := limit ]}) true.

Definition topic_cluster (self : t) (topic_id limit : Value) : Coro Value :=
  AsyncClient.get (_client self) "/graph/topic-cluster"
    (Some {[ "topic_id" := topic_id; "limit" := limit ]}) true.

End AsyncGraphResource.

Module AsyncMetaResource.
Record t : Type := mk { _client : AsyncClient.t }.

Definition related (self : t) (url_hash limit : Value) : Coro Value :=
  AsyncClient.get (_client self) "/related"
    (Some {[ "url_hash" := url_hash; "limit" := limit ]}) true.

Definition stats (self : t) : Coro Value :=
  AsyncClient.get (_client self) "/stats" None true.

Definition version (self : t) : Coro Value :=
  AsyncClient.get (_client self) "/version" None false.

Definition usage (self : t) (from_ms to_ms : Value) : Coro Value :=
  AsyncClient.get (_client self) "/usage"
    (Some {[ "from_ms" := from_ms; "to_ms" := to_ms ]}) true.

End AsyncMetaResource.

(** The top-level suspending client ([__init__.py]). *)
Module AsyncNewsRank.

Record t : Type := mk {
  _client : AsyncClient.t;
  articles : AsyncArticlesResource.t;
  stories : AsyncStoriesResource.t;
  search : AsyncSearchResource.t;
  entities : AsyncEntitiesResource.t;
  sources : AsyncSourcesResource.t;
  graph : AsyncGraphResource.t;
  meta : AsyncMetaResource.t;
}.

(** [AsyncNewsRank(api_key, *, base_url=, timeout=, httpx_client=)] *)
Definition __init__ (api_key : string) (base_url : option string)
    (timeout : Q) (httpx_client : option PoolId) : M t :=
  client ← AsyncClient.__init__ api_key base_url timeout httpx_client;
  mret {| _client := client;
          articles := AsyncArticlesResource.mk client;
          stories := AsyncStoriesResource.mk client;
          search := AsyncSearchResource.mk client;
          entities := AsyncEntitiesResource.mk client;
          sources := AsyncSourcesResource.mk client;
          graph := AsyncGraphResource.mk client;
          meta := AsyncMetaResource.mk client |}.

Definition close (self : t) : Coro unit := AsyncClient.close (_client self).

Definition __aenter__ (self : t) : Coro t := mret self.

Definition __aexit__ (self : t) : Coro unit := close self.

End AsyncNewsRank.

(* ------------------------------------------------------------------ *)
(** ** The façade surface as data

    One constructor per façade method, carrying its arguments, so that a
    statement can range over every method of every resource. *)

Inductive FacadeCall : Type :=
  | articles_list
      (limit offset category keyword source
       content_status date_from date_to sort_by sort_order : Value)
  | articles_get (url_hash slug : Value)
  | articles_content (url_hash max_chars : Value)
  | stories_list (limit offset category : Value)
  | stories_ranked (limit : Value)
  | stories_get (id : Ident)
  | stories_developments (id : Ident)
  | stories_updates (id : Ident) (since_ms : Value)
  | search_articles (q limit offset : Value)
  | search_full (q limit offset : Value)
  | search_suggest (q limit : Value)
  | entities_list (q type subcategory limit offset : Value)
  | entities_trending (limit : Value)
  | entities_politicians (limit offset : Value)
  | entities_get (id : Ident)
  | entities_articles (id : Ident) (limit offset : Value)
  | sources_list
  | sources_categories
  | sources_tags
  | sources_rankings
  | graph_entity_network (entity_id depth limit : Value)
  | graph_story_entity (story_id limit : Value)
  | graph_topic_cluster (topic_id limit : Value)
  | meta_related (url_hash limit : Value)
  | meta_stats
  | meta_version
  | meta_usage (from_ms to_ms : Value).

(** [nr.<resource>.<method>(...)] on the blocking client. *)
Definition invoke (self : NewsRank.t) (call : FacadeCall) : M Value :=
  match call with
  | articles_list limit offset category keyword source content_status
      date_from date_to sort_by sort_order =>
      ArticlesResource.list (NewsRank.articles self)
        limit offset category keyword source content_status date_from
        date_to sort_by sort_order
  | articles_get url_hash slug =>
      ArticlesResource.get (NewsRank.articles self) url_hash slug
  | articles_content url_hash max_chars =>
      ArticlesResource.content (NewsRank.articles self) url_hash max_chars
  | stories_list limit offset category =>
      StoriesResource.list (NewsRank.stories self) limit offset category
  | stories_ranked limit =>
      StoriesResource.ranked (NewsRank.stories self) limit
  | stories_get id => StoriesResource.get (NewsRank.stories self) id
  | stories_developments id =>
      StoriesResource.developments (NewsRank.stories self) id
  | stories_updates id since_ms =>
      StoriesResource.updates (NewsRank.stories self) id since_ms
  | search_articles q limit offset =>
      SearchResource.articles (NewsRank.search self) q limit offset
  | search_full q limit offset =>
      SearchResource.full (NewsRank.search self) q limit offset
  | search_suggest q limit =>
      SearchResource.suggest (NewsRank.search self) q limit
  | entities_list q type subcategory limit offset =>
      EntitiesResource.list (NewsRank.entities self)
        q type subcategory limit offset
  | entities_trending limit =>
      EntitiesResource.trending (NewsRank.entities self) limit
  | entities_politicians limit offset =>
      EntitiesResource.politicians (NewsRank.entities self) limit offset
  | entities_get id => EntitiesResource.get (NewsRank.entities self) id
  | entities_articles id limit offset =>
      EntitiesResource.articles (NewsRank.entities self) id limit offset
  | sources_list => SourcesResource.list (NewsRank.sources self)
  | sources_categories => SourcesResource.categories (NewsRank.sources self)
  | sources_tags => SourcesResource.tags (NewsRank.sources self)
  | sources_rankings => SourcesResource.rankings (NewsRank.sources self)
  | graph_entity_network entity_id depth limit =>
      GraphResource.entity_network (NewsRank.graph self) entity_id depth limit
  | graph_story_entity story_id limit =>
      GraphResource.story_entity (NewsRank.graph self) story_id limit
  | graph_topic_cluster topic_id limit =>
      GraphResource.topic_cluster (NewsRank.graph self) topic_id limit
  | meta_related url_hash limit =>
      MetaResource.related (NewsRank.meta self) url_hash limit
  | meta_stats => MetaResource.stats (NewsRank.meta self)
  | meta_version => MetaResource.version (NewsRank.meta self)
  | meta_usage from_ms to_ms =>
      MetaResource.usage (NewsRank.meta self) from_ms to_ms
  end.

(** [await nr.<resource>.<method>(...)] on the suspending client. *)
Definition ainvoke (self : AsyncNewsRank.t) (call : FacadeCall) : Coro Value :=
  match call with
  | articles_list limit offset category keyword source content_status
      date_from date_to sort_by sort_order =>
      AsyncArticlesResource.list (AsyncNewsRank.articles self)
        limit offset category keyword source content_status date_from
        date_to sort_by sort_order
  | articles_get url_hash slug =>
      AsyncArticlesResource.get (AsyncNewsRank.articles self) url_hash slug
  | articles_content url_hash max_chars =>
      AsyncArticlesResource.content (AsyncNewsRank.articles self)
        url_hash max_chars
  | stories_list limit offset category =>
      AsyncStoriesResource.list (AsyncNewsRank.stories self)
        limit offset category
  | stories_ranked limit =>
      AsyncStoriesResource.ranked (AsyncNewsRank.stories self) limit
  | stories_get id => AsyncStoriesResource.get (AsyncNewsRank.stories self) id
  | stories_developments id =>
      AsyncStoriesResource.developments (AsyncNewsRank.stories self) id
  | stories_updates id since_ms =>
      AsyncStoriesResource.updates (AsyncNewsRank.stories self) id since_ms
  | search_articles q limit offset =>
      AsyncSearchResource.articles (AsyncNewsRank.search self) q limit offset
  | search_full q limit offset =>
      AsyncSearchResource.full (AsyncNewsRank.search self) q limit offset
  | search_suggest q limit =>
      AsyncSearchResource.suggest (AsyncNewsRank.search self) q limit
  | entities_list q type subcategory limit offset =>
      AsyncEntitiesResource.list (AsyncNewsRank.entities self)
        q type subcategory limit offset
  | entities_trending limit =>
      AsyncEntitiesResource.trending (AsyncNewsRank.entities self) limit
  | entities_politicians limit offset =>
      AsyncEntitiesResource.politicians (AsyncNewsRank.entities self)
        limit offset
  | entities_get id =>
      AsyncEntitiesResource.get (AsyncNewsRank.entities self) id
  | entities_articles id limit offset =>
      AsyncEntitiesResource.articles (AsyncNewsRank.entities self)
        id limit offset
  | sources_list => AsyncSourcesResource.list (AsyncNewsRank.sources self)
  | sources_categories =>
      AsyncSourcesResource.categories (AsyncNewsRank.sources self)
  | sources_tags => AsyncSourcesResource.tags (AsyncNewsRank.sources self)
  | sources_rankings =>
      AsyncSourcesResource.rankings (AsyncNewsRank.sources self)
  | graph_entity_network entity_id depth limit =>
      AsyncGraphResource.entity_network (AsyncNewsRank.graph self)
        entity_id depth limit
  | graph_story_entity story_id limit =>
      AsyncGraphResource.story_entity (AsyncNewsRank.graph self)
        story_id limit
  | graph_topic_cluster topic_id limit =>
      AsyncGraphResource.topic_cluster (AsyncNewsRank.graph self)
        topic_id limit
  | meta_related url_hash limit =>
      AsyncMetaResource.related (AsyncNewsRank.meta self) url_hash limit
  | meta_stats => AsyncMetaResource.stats (AsyncNewsRank.meta self)
  | meta_version => AsyncMetaResource.version (AsyncNewsRank.meta self)
  | meta_usage from_ms to_ms =>
      AsyncMetaResource.usage (AsyncNewsRank.meta self) from_ms to_ms
  end.

(* ------------------------------------------------------------------ *)
(** ** Calling a façade method

    A call site passes each argument of a method or leaves it out. What
    the body of the method then sees is fixed by the [def] line: a
    parameter declared with [= None] takes that default, a parameter
    declared without a default must be passed, or the call raises
    [TypeError] before the body runs. Unknown keywords and surplus
    positional arguments are not modelled. *)

(** The text of the message is not modelled. *)
Definition TypeError : Instance :=
  Exception___init__ (new_instance (External "TypeError")) [].

(** A parameter declared as [name: T = None]. *)
Definition or_None (arg : option Value) : Value := default VNone arg.

(** A parameter declared as [name: T], without a default. *)
Definition required_arg {A} (arg : option A) : Exc A :=
  match arg with
  | Some v => Return v
  | None => Raise TypeError
  end.

(** One call site per façade method; [None] is an argument left out. *)
Inductive CallSite : Type :=
  | at_articles_list
      (limit offset category keyword source
       content_status date_from date_to sort_by sort_order : option Value)
  | at_articles_get (url_hash slug : option Value)
  | at_articles_content (url_hash max_chars : option Value)
  | at_stories_list (limit offset category : option Value)
  | at_stories_ranked (limit : option Value)
  | at_stories_get (id : option Ident)
  | at_stories_developments (id : option Ident)
  | at_stories_updates (id : option Ident) (since_ms : option Value)
  | at_search_articles (q limit offset : option Value)
  | at_search_full (q limit offset : option Value)
  | at_search_suggest (q limit : option Value)
  | at_entities_list (q type subcategory limit offset : option Value)
  | at_entities_trending (limit : option Value)
  | at_entities_politicians (limit offset : option Value)
  | at_entities_get (id : option Ident)
  | at_entities_articles (id : option Ident) (limit offset : option Value)
  | at_sources_list
  | at_sources_categories
  | at_sources_tags
  | at_sources_rankings
  | at_graph_entity_network (entity_id depth limit : option Value)
  | at_graph_story_entity (story_id limit : option Value)
  | at_graph_topic_cluster (topic_id limit : option Value)
  | at_meta_related (url_hash limit : option Value)
  | at_meta_stats
  | at_meta_version
  | at_meta_usage (from_ms to_ms : option Value).

(** Argument binding, per the signatures of the resource classes (the
    suspending classes declare the same ones). *)
Definition bind_arguments (site : CallSite) : Exc FacadeCall :=
  match site with
  | at_articles_list limit offset category keyword source content_status
      date_from date_to sort_by sort_order =>
      mret (articles_list (or_None limit) (or_None offset)
        (or_None category) (or_None keyword) (or_None source)
        (or_None content_status) (or_None date_from) (or_None date_to)
        (or_None sort_by) (or_None sort_order))
  | at_articles_get url_hash slug =>
      mret (articles_get (or_None url_hash) (or_None slug))
  | at_articles_content url_hash max_chars =>
      url_hash ← required_arg url_hash;
      mret (articles_content url_hash (or_None max_chars))
  | at_stories_list limit offset category =>
      mret (stories_list (or_None limit) (or_None offset)
        (or_None category))
  | at_stories_ranked limit =>
      mret (stories_ranked (or_None limit))
  | at_stories_get id =>
      id ← required_arg id;
      mret (stories_get id)
  | at_stories_developments id =>
      id ← required_arg id;
      mret (stories_developments id)
  | at_stories_updates id since_ms =>
      id ← required_arg id;
      since_ms ← required_arg since_ms;
      mret (stories_updates id since_ms)
  | at_search_articles q limit offset =>
      q ← required_arg q;
      mret (search_articles q (or_None limit) (or_None offset))
  | at_search_full q limit offset =>
      q ← required_arg q;
      mret (search_full q (or_None limit) (or_None offset))
  | at_search_suggest q limit =>
      q ← required_arg q;
      mret (search_suggest q (or_None limit))
  | at_entities_list q type subcategory limit offset =>
      mret (entities_list (or_None q) (or_None type) (or_None subcategory)
        (or_None limit) (or_None offset))
  | at_entities_trending limit =>
      mret (entities_trending (or_None limit))
  | at_entities_politicians limit offset =>
      mret (entities_politicians (or_None limit) (or_None offset))
  | at_entities_get id =>
      id ← required_arg id;
      mret (entities_get id)
  | at_entities_articles id limit offset =>
      id ← required_arg id;
      mret (entities_articles id (or_None limit) (or_None offset))
  | at_sources_list =>
      mret sources_list
  | at_sources_categories =>
      mret sources_categories
  | at_sources_tags =>
      mret sources_tags
  | at_sources_rankings =>
      mret sources_rankings
  | at_graph_entity_network entity_id depth limit =>
      entity_id ← required_arg entity_id;
      mret (graph_entity_network entity_id (or_None depth) (or_None limit))
  | at_graph_story_entity story_id limit =>
      story_id ← required_arg story_id;
      mret (graph_story_entity story_id (or_None limit))
  | at_graph_topic_cluster topic_id limit =>
      mret (graph_topic_cluster (or_None topic_id) (or_None limit))
  | at_meta_related url_hash limit =>
      url_hash ← required_arg url_hash;
      mret (meta_related url_hash (or_None limit))
  | at_meta_stats =>
      mret meta_stats
  | at_meta_version =>
      mret meta_version
  | at_meta_usage from_ms to_ms =>
      mret (meta_usage (or_None from_ms) (or_None to_ms))
  end.

(** [nr.<resource>.<method>(<the arguments passed>)] *)
Definition call (self : NewsRank.t) (site : CallSite) : M Value :=
  c ← pure (bind_arguments site);
  invoke self c.

(** [await nr.<resource>.<method>(<the arguments passed>)] *)
Definition acall (self : AsyncNewsRank.t) (site : CallSite) : Coro Value :=
  c ← Done (bind_arguments site);
  ainvoke self c.

(* ------------------------------------------------------------------ *)
(** ** Observations on the heap *)

(** The request a pool sent last. *)
Definition last_sent (σ : World) (p : PoolId) : option Request :=
  pool ← pools σ !! p; last (pool_sent pool).

(** Everything a pool has sent. *)
Definition all_sent (σ : World) (p : PoolId) : option (list Request) :=
  pool_sent <$> pools σ !! p.

(** How many times a pool has been closed. *)
Definition closes (σ : World) (p : PoolId) : option nat :=
  pool_closes <$> pools σ !! p.

(** What the pool [p], in the state it has in [σ], answers to [req]. *)
Definition answer (σ : World) (p : PoolId) (req : Request)
    : option (Exc Response) :=
  (λ pool, pool_transport pool (pool_closes pool) (pool_sent pool) req)
    <$> pools σ !! p.

(* ------------------------------------------------------------------ *)
(** ** What the specification describes

    These definitions follow the wording of the specification, not the
    code; the theorems below compare the two. *)

(** The classification table, in its priority order: 401, 403, 404, 429,
    then 500–599, then everything else. *)
Definition kind_of_status (status : Z) : ErrorKind :=
  if bool_decide (status = 401) then AuthenticationError
  else if bool_decide (status = 403) then PermissionError
  else if bool_decide (status = 404) then NotFoundError
  else if bool_decide (status = 429) then RateLimitError
  else if bool_decide (500 ≤ status ≤ 599) then ServerError
  else NewsRankError.

(** ["API request failed with status <code>"] *)
Definition fallback_message (status : Z) : Value :=
  VStr ("API request failed with status " +:+ str_int status).

(** The message of a failed response: the [error] field of a JSON mapping,
    else its [message] field, else the fallback. *)
Definition described_message (response : Response) : Value :=
  match json_result response with
  | Some (VDict d) =>
      match d !! "error" with
      | Some m => m
      | None =>
          match d !! "message" with
          | Some m => m
          | None => fallback_message (status_code response)
          end
      end
  | _ => fallback_message (status_code response)
  end.

(** The stored body of a failed response: the decoded JSON, or the raw
    text when the body is not JSON. *)
Definition described_body (response : Response) : Value :=
  match json_result response with
  | Some b => b
  | None => VStr (text response)
  end.

(** What [request] hands back for a response: the no-content value for a
    204 or an empty body, the decoded JSON for any other success, the
    classified error otherwise. *)
Definition described_outcome (response : Response) : Exc Value :=
  if bool_decide (200 ≤ status_code response ≤ 299) then
    if bool_decide (status_code response = 204 ∨ content response = [])
    then Return VNone
    else match json_result response with
         | Some v => Return v
         | None => Raise JSONDecodeError
         end
  else
    Raise (call_class (kind_of_status (status_code response))
             (described_message response)
             (VInt (status_code response))
             (described_body response)).

(** The request that goes on the wire for [request(method, path, params,
    auth)] on a client with the given key and base URL. *)
Definition wire_request (api_key base_url method path : string)
    (params : option (gmap string Value)) (auth : bool) : Request :=
  {| req_method := method;
     req_url := base_url +:+ path;
     req_params := filter (λ kv, kv.2 ≠ VNone) (default ∅ params);
     req_headers :=
       if auth then {[ "Authorization" := "Bearer " +:+ api_key ]} else ∅ |}.

(** The same, for a given blocking client. *)
Definition wire_of (self : SyncClient.t) (method path : string)
    (params : option (gmap string Value)) (auth : bool) : Request :=
  wire_request (SyncClient._api_key self) (SyncClient._base_url self)
    method path params auth.

(** [n] slashes. *)
Fixpoint slashes (n : nat) : string :=
  match n with
  | O => EmptyString
  | S m => String "/" (slashes m)
  end.

(** The last character of a string, if any. *)
Fixpoint last_char (s : string) : option ascii :=
  match s with
  | EmptyString => None
  | String c EmptyString => Some c
  | String _ rest => last_char rest
  end.

(** The top-level clients as their constructors assemble them: every
    façade bound to the one transport client. *)
Definition facades_on (c : SyncClient.t) : NewsRank.t :=
  {| NewsRank._client := c;
     NewsRank.articles := ArticlesResource.mk c;
     NewsRank.stories := StoriesResource.mk c;
     NewsRank.search := SearchResource.mk c;
     NewsRank.entities := EntitiesResource.mk c;
     NewsRank.sources := SourcesResource.mk c;
     NewsRank.graph := GraphResource.mk c;
     NewsRank.meta := MetaResource.mk c |}.

Definition async_facades_on (c : AsyncClient.t) : AsyncNewsRank.t :=
  {| AsyncNewsRank._client := c;
     AsyncNewsRank.articles := AsyncArticlesResource.mk c;
     AsyncNewsRank.stories := AsyncStoriesResource.mk c;
     AsyncNewsRank.search := AsyncSearchResource.mk c;
     AsyncNewsRank.entities := AsyncEntitiesResource.mk c;
     AsyncNewsRank.sources := AsyncSourcesResource.mk c;
     AsyncNewsRank.graph := AsyncGraphResource.mk c;
     AsyncNewsRank.meta := AsyncMetaResource.mk c |}.

(** The blocking client that has the attributes of a suspending one. *)
Definition as_sync (a : AsyncClient.t) : SyncClient.t :=
  {| SyncClient._api_key := AsyncClient._api_key a;
     SyncClient._base_url := AsyncClient._base_url a;
     SyncClient._owns_client := AsyncClient._owns_client a;
     SyncClient._client := AsyncClient._client a |}.

(** The façade methods that are documented as unauthenticated. *)
Definition is_version (call : FacadeCall) : bool :=
  match call with
  | meta_version => true
  | _ => false
  end.

(* ------------------------------------------------------------------ *)
(** ** Client lifecycles *)

(** One operation a caller may apply to a transport client. *)
Inductive ClientOp : Type :=
  | DoRequest (method path : string) (params : option (gmap string Value))
      (auth : bool)
  | DoGet (path : string) (params : option (gmap string Value)) (auth : bool)
  | DoClose
  | DoEnter
  | DoExit.

(** The heap after one operation, whether it returned or raised. *)
Definition perform (self : SyncClient.t) (op : ClientOp) (σ : World) : World :=
  match op with
  | DoRequest method path params auth =>
      (SyncClient.request self method path params auth σ).2
  | DoGet path params auth => (SyncClient.get self path params auth σ).2
  | DoClose => (SyncClient.close self σ).2
  | DoEnter => (SyncClient.__enter__ self σ).2
  | DoExit => (SyncClient.__exit__ self σ).2
  end.

(** The heap after a sequence of operations, the caller carrying on after
    each one even when it raised. *)
Definition perform_all (self : SyncClient.t) (ops : list ClientOp) (σ : World)
    : World :=
  foldl (λ σ' op, perform self op σ') σ ops.

(** The arguments of one [request] call. *)
Record Call : Type := mkCall {
  call_method : string;
  call_path : string;
  call_params : option (gmap string Value);
  call_auth : bool;
}.

(** A block of consecutive requests; the first one that raises ends the
    block. *)
Fixpoint use (self : SyncClient.t) (calls : list Call) : M (list Value) :=
  match calls with
  | [] => mret []
  | c :: rest =>
      v ← SyncClient.request self (call_method c) (call_path c)
            (call_params c) (call_auth c);
      vs ← use self rest;
      mret (v :: vs)
  end.

(** [with SyncClient(api_key, base_url=, timeout=, httpx_client=) as c:]
    followed by a block of requests. *)
Definition scoped (api_key : string) (base_url : option string) (timeout : Q)
    (httpx_client : option PoolId) (calls : list Call) : M (list Value) :=
  self ← SyncClient.__init__ api_key base_url timeout httpx_client;
  with_statement SyncClient.__enter__ SyncClient.__exit__ self
    (λ c, use c calls).

(* ------------------------------------------------------------------ *)
(** ** Concrete scenarios *)

Module Scenario.

(** A transport that answers every request with the same response. *)
Definition respond (r : Response) : Transport := λ _ _ _, Return r.

(** A heap with no pool yet, wired to the given network. *)
Definition world (t : Transport) : World := {| pools := ∅; network := t |}.

(** A heap holding one pool that belongs to the caller. *)
Definition world_with_pool (t : Transport) : World :=
  {| pools := {[ 1%positive := {| pool_timeout := 5;
                                  pool_headers := ∅;
                                  pool_transport := t;
                                  pool_sent := [];
                                  pool_closes := O |} ]};
     network := t |}.

(** A 404 whose body is the plain text [not found]. *)
Definition not_found : Response :=
  {| status_code := 404;
     content := [Byte.x6e; Byte.x6f; Byte.x74; Byte.x20; Byte.x66; Byte.x6f; Byte.x75;
                Byte.x6e; Byte.x64];
     text := "not found";
     json_result := None |}.

(** A 429 whose body is the JSON mapping with the one field [error],
    holding [rate limited]. *)
Definition rate_limited : Response :=
  {| status_code := 429;
     content := [Byte.x7b; Byte.x22; Byte.x65; Byte.x72; Byte.x72; Byte.x6f; Byte.x72;
                Byte.x22; Byte.x3a; Byte.x22; Byte.x72; Byte.x61; Byte.x74;
                Byte.x65; Byte.x20; Byte.x6c; Byte.x69; Byte.x6d; Byte.x69;
                Byte.x74; Byte.x65; Byte.x64; Byte.x22; Byte.x7d];
     text := string_of_list_byte
               [Byte.x7b; Byte.x22; Byte.x65; Byte.x72; Byte.x72; Byte.x6f; Byte.x72;
               Byte.x22; Byte.x3a; Byte.x22; Byte.x72; Byte.x61; Byte.x74;
               Byte.x65; Byte.x20; Byte.x6c; Byte.x69; Byte.x6d; Byte.x69;
               Byte.x74; Byte.x65; Byte.x64; Byte.x22; Byte.x7d];
     json_result := Some (VDict {[ "error" := VStr "rate limited" ]}) |}.

(** A 200 whose body is the JSON mapping with the one field [items],
    a list holding one story with [id] 1 and [title] A. *)
Definition ranked_stories : Response :=
  {| status_code := 200;
     content := [Byte.x7b; Byte.x22; Byte.x69; Byte.x74; Byte.x65; Byte.x6d; Byte.x73;
                Byte.x22; Byte.x3a; Byte.x5b; Byte.x7b; Byte.x22; Byte.x69;
                Byte.x64; Byte.x22; Byte.x3a; Byte.x31; Byte.x2c; Byte.x22;
                Byte.x74; Byte.x69; Byte.x74; Byte.x6c; Byte.x65; Byte.x22;
                Byte.x3a; Byte.x22; Byte.x41; Byte.x22; Byte.x7d; Byte.x5d;
                Byte.x7d];
     text := string_of_list_byte
               [Byte.x7b; Byte.x22; Byte.x69; Byte.x74; Byte.x65; Byte.x6d; Byte.x73;
               Byte.x22; Byte.x3a; Byte.x5b; Byte.x7b; Byte.x22; Byte.x69;
               Byte.x64; Byte.x22; Byte.x3a; Byte.x31; Byte.x2c; Byte.x22;
               Byte.x74; Byte.x69; Byte.x74; Byte.x6c; Byte.x65; Byte.x22;
               Byte.x3a; Byte.x22; Byte.x41; Byte.x22; Byte.x7d; Byte.x5d;
               Byte.x7d];
     json_result :=
       Some (VDict {[ "items" :=
                        VList [VDict {[ "id" := VInt 1;
                                        "title" := VStr "A" ]}] ]}) |}.

(** A 204 with no body. *)
Definition no_content : Response :=
  {| status_code := 204; content := []; text := ""; json_result := None |}.

(** The client [SyncClient(api_key)] built on a heap wired to a network
    that answers [r], and the heap after its construction. *)
Definition client_on (r : Response) : Exc SyncClient.t * World :=
  SyncClient.__init__ "nrf_key" None DEFAULT_TIMEOUT None (world (respond r)).

(** The pool that [SyncClient(api_key)] creates on that heap. *)
Definition owned_pool (r : Response) : Pool :=
  {| pool_timeout := DEFAULT_TIMEOUT;
     pool_headers := {[ "User-Agent" := USER_AGENT;
                        "Accept" := "application/json" ]};
     pool_transport := respond r;
     pool_sent := [];
     pool_closes := O |}.

(** Query parameters with one value present and one absent. *)
Definition listing_params : gmap string Value :=
  {[ "limit" := VInt 10; "category" := VNone ]}.

Definition the_client : SyncClient.t :=
  {| SyncClient._api_key := "nrf_key";
     SyncClient._base_url := DEFAULT_BASE_URL;
     SyncClient._owns_client := true;
     SyncClient._client := 1%positive |}.

(** [NewsRank(api_key)] on the same heap. *)
Definition the_newsrank : NewsRank.t := facades_on the_client.

(** A connection-level fault, as the networking layer raises it. *)
Definition ConnectError : Instance :=
  Exception___init__ (new_instance (External "httpx.ConnectError")) [].

(** A transport that never gets an answer. *)
Definition refuse : Transport := λ _ _ _, Raise ConnectError.

(** A 200 whose body is the four bytes [oops], which is not JSON. *)
Definition garbled : Response :=
  {| status_code := 200;
     content := [Byte.x6f; Byte.x6f; Byte.x70; Byte.x73];
     text := "oops";
     json_result := None |}.

(** The heap after [SyncClient(api_key)] on a network that refuses. *)
Definition offline : World :=
  (SyncClient.__init__ "nrf_key" None DEFAULT_TIMEOUT None (world refuse)).2.

(** A client built on the caller's pool of [world_with_pool]. *)
Definition the_guest : SyncClient.t :=
  {| SyncClient._api_key := "nrf_key";
     SyncClient._base_url := DEFAULT_BASE_URL;
     SyncClient._owns_client := false;
     SyncClient._client := 1%positive |}.

(** The caller's pool of [world_with_pool]. *)
Definition callers_pool (t : Transport) : Pool :=
  {| pool_timeout := 5;
     pool_headers := ∅;
     pool_transport := t;
     pool_sent := [];
     pool_closes := O |}.

(** [SyncClient(api_key, base_url=...)] with an override made of one slash:
    what is kept of it is the empty string. *)
Definition the_rootless_client : SyncClient.t :=
  {| SyncClient._api_key := "nrf_key";
     SyncClient._base_url := "";
     SyncClient._owns_client := true;
     SyncClient._client := 1%positive |}.

(** Query parameters that are all absent. *)
Definition absent_params : gmap string Value :=
  {[ "limit" := VNone; "offset" := VNone ]}.

End Scenario.

(* ------------------------------------------------------------------ *)
(** ** More lifecycles: counting closes, the top-level client, [async with] *)

(** The operations that ask the client to close. *)
Definition is_closing (op : ClientOp) : bool :=
  match op with
  | DoClose | DoExit => true
  | _ => false
  end.

(** A block of consecutive façade calls on the top-level client; the first
    one that raises ends the block. *)
Fixpoint call_all (self : NewsRank.t) (sites : list CallSite) : M (list Value) :=
  match sites with
  | [] => mret []
  | site :: rest =>
      v ← call self site;
      vs ← call_all self rest;
      mret (v :: vs)
  end.

(** [with NewsRank(api_key, base_url=, timeout=, httpx_client=) as nr:]
    followed by a block of façade calls. *)
Definition toplevel_scoped (api_key : string) (base_url : option string)
    (timeout : Q) (httpx_client : option PoolId) (sites : list CallSite)
    : M (list Value) :=
  self ← NewsRank.__init__ api_key base_url timeout httpx_client;
  with_statement NewsRank.__enter__ NewsRank.__exit__ self
    (λ nr, call_all nr sites).

(** A coroutine run as the body of a [try]: however it ends, the outcome
    is handed over as a value. *)
Fixpoint Coro_try {A} (c : Coro A) : Coro (Exc A) :=
  match c with
  | Done r => Done (Return r)
  | AwaitRequest p req k => AwaitRequest p req (λ r, Coro_try (k r))
  | AwaitClose p k => AwaitClose p (λ r, Coro_try (k r))
  end.

(** [async with mgr as v: body]: [__aexit__] is awaited on every way out
    of the body; it returns [None] here, so an exception of the body
    propagates. *)
Definition async_with_statement {T R} (aenter : T → Coro T)
    (aexit : T → Coro unit) (mgr : T) (body : T → Coro R) : Coro R :=
  v ← aenter mgr;
  r ← Coro_try (body v);
  _ ← aexit mgr;
  Done r.

(** A block of consecutive awaited requests; the first one that raises
    ends the block. *)
Fixpoint ause (self : AsyncClient.t) (calls : list Call) : Coro (list Value) :=
  match calls with
  | [] => mret []
  | c :: rest =>
      v ← AsyncClient.request self (call_method c) (call_path c)
            (call_params c) (call_auth c);
      vs ← ause self rest;
      mret (v :: vs)
  end.

(** [async with AsyncClient(api_key, base_url=, timeout=, httpx_client=)
    as c:] followed by a block of awaited requests, driven to completion
    by the event loop. *)
Definition ascoped (api_key : string) (base_url : option string) (timeout : Q)
    (httpx_client : option PoolId) (calls : list Call) : M (list Value) :=
  self ← AsyncClient.__init__ api_key base_url timeout httpx_client;
  run_until_complete
    (async_with_statement AsyncClient.__aenter__ AsyncClient.__aexit__ self
       (λ c, ause c calls)).

(* ================================================================== *)
(** * Properties *)

(* ------------------------------------------------------------------ *)
(** ** Classes and attributes *)

Lemma issubclass_refl (c : PyClass) : issubclass c c = true.
Proof.
  unfold issubclass, mro. apply bool_decide_eq_true.
  destruct c; simpl; left.
Qed.

Lemma package_classes_derive (kind : ErrorKind) :
  issubclass (Pkg kind) (Pkg NewsRankError) = true.
Proof. by destruct kind. Qed.

Lemma every_class_is_an_Exception (c : PyClass) : issubclass c Exception = true.
Proof. by destruct c as [| |[]]. Qed.

Lemma call_class_type (kind : ErrorKind) (message status body : Value) :
  ob_type (call_class kind message status body) = Pkg kind.
Proof. by destruct kind. Qed.

Lemma call_class_message (kind : ErrorKind) (message status body : Value) :
  getattr (call_class kind message status body) "message" = Some message.
Proof. by destruct kind. Qed.

Lemma call_class_status_code (kind : ErrorKind) (message status body : Value) :
  getattr (call_class kind message status body) "status_code" = Some status.
Proof. by destruct kind. Qed.

Lemma call_class_body (kind : ErrorKind) (message status body : Value) :
  getattr (call_class kind message status body) "body" = Some body.
Proof. by destruct kind. Qed.

(* ------------------------------------------------------------------ *)
(** ** Error building *)

Lemma status_map_lookup (status : Z) :
  _STATUS_MAP !! status =
    if bool_decide (status = 401) then Some AuthenticationError
    else if bool_decide (status = 403) then Some PermissionError
    else if bool_decide (status = 404) then Some NotFoundError
    else if bool_decide (status = 429) then Some RateLimitError
    else None.
Proof.
  unfold _STATUS_MAP.
  repeat (rewrite lookup_insert; case_decide; case_bool_decide; try done).
  rewrite lookup_singleton. by case_decide; case_bool_decide.
Qed.

(** The code's lookup-then-range test computes the specification's table. *)
Lemma class_selection (status : Z) :
  match _STATUS_MAP !! status with
  | Some exc_cls => exc_cls
  | None => if bool_decide (500 ≤ status < 600) then ServerError else NewsRankError
  end = kind_of_status status.
Proof.
  rewrite status_map_lookup. unfold kind_of_status.
  repeat case_bool_decide; try done; lia.
Qed.

(** The [try] block of [_build_error]: its handler catches whatever the
    JSON decoder raises. *)
Lemma build_error_eq (response : Response) :
  _build_error response =
    Return (call_class (kind_of_status (status_code response))
              (described_message response)
              (VInt (status_code response))
              (described_body response)).
Proof.
  unfold _build_error, described_message, described_body, fallback_message,
    Response_json, dict_get.
  rewrite <- class_selection.
  destruct (json_result response) as [[| | | | | |d]|]; simpl;
    try destruct (d !! "error") as [m|]; simpl;
    try destruct (d !! "message") as [m'|]; simpl;
    by destruct (_STATUS_MAP !! status_code response); [|case_bool_decide].
Qed.

(* ------------------------------------------------------------------ *)
(** ** One round trip through a pool *)

Lemma client_request_run (σ : World) (p : PoolId) (req : Request)
    (r : Exc Response) :
  answer σ p req = Some r →
  ∃ σ', httpx_Client_request p req σ = (r, σ')
    ∧ last_sent σ' p = Some req
    ∧ all_sent σ' p = (λ sent, sent ++ [req]) <$> all_sent σ p
    ∧ closes σ' p = closes σ p
    ∧ network σ' = network σ
    ∧ ∀ q, q ≠ p → pools σ' !! q = pools σ !! q.
Proof.
  unfold answer, httpx_Client_request, last_sent, all_sent, closes.
  destruct (pools σ !! p) as [pool|] eqn:Hp; simpl; [|done].
  intros [= <-]. eexists. split; [done|]. simpl.
  rewrite lookup_insert_eq. simpl. rewrite last_snoc.
  repeat split; try done.
  intros q Hq. by rewrite lookup_insert_ne.
Qed.

(** A request never closes, creates or drops a pool. *)
Lemma client_request_closes (σ : World) (p q : PoolId) (req : Request) :
  closes (httpx_Client_request p req σ).2 q = closes σ q.
Proof.
  unfold httpx_Client_request, closes.
  destruct (pools σ !! p) as [pool|] eqn:Hp; simpl; [|done].
  destruct (decide (p = q)) as [<-|Hne].
  - by rewrite lookup_insert_eq, Hp.
  - by rewrite lookup_insert_ne.
Qed.

Lemma client_close_closes (σ : World) (p : PoolId) (n : nat) :
  closes σ p = Some n →
  closes (httpx_Client_close p σ).2 p = Some (S n).
Proof.
  unfold httpx_Client_close, closes.
  destruct (pools σ !! p) as [pool|] eqn:Hp; simpl; [|done].
  intros [= <-]. by rewrite lookup_insert_eq.
Qed.

Lemma client_close_other (σ : World) (p q : PoolId) :
  q ≠ p → closes (httpx_Client_close p σ).2 q = closes σ q.
Proof.
  intros Hq. unfold httpx_Client_close, closes.
  destruct (pools σ !! p) as [pool|]; simpl; [|done].
  by rewrite lookup_insert_ne.
Qed.

(* ------------------------------------------------------------------ *)
(** ** The blocking [request], end to end *)

(** [request] is one round trip on the wire request, followed by the
    outcome the specification describes for the response. *)
Lemma outcome_eq (response : Response) (σ : World) :
  (if negb (is_success response) then
     e ← pure (_build_error response); raise e
   else if bool_decide (status_code response = 204)
           || bool_decide (content response = []) then
     mret VNone
   else
     pure (Response_json response)) σ
  = (described_outcome response, σ).
Proof.
  unfold described_outcome, is_success.
  case_bool_decide; simpl.
  - rewrite bool_decide_or. by destruct (_ || _).
  - by rewrite build_error_eq.
Qed.

Lemma request_eq (self : SyncClient.t) (method path : string)
    (params : option (gmap string Value)) (auth : bool) (σ : World) :
  SyncClient.request self method path params auth σ =
    (response ← httpx_Client_request (SyncClient._client self)
                  (wire_of self method path params auth);
     pure (described_outcome response)) σ.
Proof.
  unfold SyncClient.request, wire_of, wire_request, _clean_params.
  replace (dict_or_empty params) with (default (∅ : gmap string Value) params)
    by (by destruct params).
  replace (if auth
           then <["Authorization" := "Bearer " +:+ SyncClient._api_key self]> ∅
           else ∅)
    with (if auth
          then ({[ "Authorization" := "Bearer " +:+ SyncClient._api_key self ]}
                : gmap string string)
          else ∅) by (by destruct auth).
  unfold mbind, M_bind.
  destruct (httpx_Client_request _ _ σ) as [[e|response] σ']; [done|].
  apply outcome_eq.
Qed.

(** The shape every property of [request] starts from: when the pool
    answers [r] to the wire request, [request] ends with the outcome of
    [r] on a heap where the pool has sent exactly that request more. *)
Lemma request_run (self : SyncClient.t) (method path : string)
    (params : option (gmap string Value)) (auth : bool) (σ : World)
    (r : Exc Response) :
  answer σ (SyncClient._client self) (wire_of self method path params auth)
    = Some r →
  ∃ σ',
    SyncClient.request self method path params auth σ =
      (match r with
       | Raise e => Raise e
       | Return response => described_outcome response
       end, σ')
    ∧ last_sent σ' (SyncClient._client self)
        = Some (wire_of self method path params auth)
    ∧ all_sent σ' (SyncClient._client self)
        = (λ sent, sent ++ [wire_of self method path params auth])
            <$> all_sent σ (SyncClient._client self)
    ∧ closes σ' (SyncClient._client self) = closes σ (SyncClient._client self).
Proof.
  intros Hans.
  destruct (client_request_run _ _ _ _ Hans) as (σ' & Hrun & Hlast & Hall & Hcl & _).
  exists σ'. rewrite request_eq. unfold mbind, M_bind. rewrite Hrun.
  by destruct r.
Qed.

Lemma answer_live (σ : World) (p : PoolId) (req : Request) (pool : Pool) :
  pools σ !! p = Some pool →
  answer σ p req
    = Some (pool_transport pool (pool_closes pool) (pool_sent pool) req).
Proof. unfold answer. by intros ->. Qed.

(** The table of [kind_of_status], row by row. *)
Lemma kind_of_status_table :
  kind_of_status 401 = AuthenticationError
  ∧ kind_of_status 403 = PermissionError
  ∧ kind_of_status 404 = NotFoundError
  ∧ kind_of_status 429 = RateLimitError
  ∧ (∀ status, 500 ≤ status ≤ 599 → kind_of_status status = ServerError)
  ∧ (∀ status,
       status ∉ [401; 403; 404; 429] → ¬ (500 ≤ status ≤ 599) →
       kind_of_status status = NewsRankError).
Proof.
  repeat split; try done.
  - intros status Hs. unfold kind_of_status.
    repeat case_bool_decide; try done; lia.
  - intros status Hnot Hs. unfold kind_of_status.
    repeat case_bool_decide; try done; subst; exfalso; apply Hnot;
      set_solver.
Qed.

(* ------------------------------------------------------------------ *)
(** ** Failed responses *)

(** C1. For every response whose status lies outside 200–299, [request]
    raises an error whose class is fixed by the status alone, in this
    order: 401 Authentication, 403 Permission, 404 NotFound, 429
    RateLimit, 500–599 Server, any other status the base class; the
    [status_code] attribute of the raised error is the status of the
    response. *)
Theorem request_raises_classified_error
    (self : SyncClient.t) (method path : string)
    (params : option (gmap string Value)) (auth : bool) (σ : World)
    (response : Response) :
  answer σ (SyncClient._client self) (wire_of self method path params auth)
    = Some (Return response) →
  ¬ (200 ≤ status_code response ≤ 299) →
  ∃ e σ',
    SyncClient.request self method path params auth σ = (Raise e, σ')
    ∧ ob_type e = Pkg (kind_of_status (status_code response))
    ∧ getattr e "status_code" = Some (VInt (status_code response)).
Proof.
  intros Hans Hfail.
  destruct (request_run _ _ _ _ _ _ _ Hans) as (σ' & Hrun & _).
  unfold described_outcome in Hrun. rewrite bool_decide_eq_false_2 in Hrun by done.
  eexists _, σ'. split; [exact Hrun|].
  by rewrite call_class_type, call_class_status_code.
Qed.

Lemma request_raises_classified_error_witness :
  ∃ e σ',
    SyncClient.request Scenario.the_client "GET" "/item" None true
      (Scenario.client_on Scenario.not_found).2 = (Raise e, σ')
    ∧ ob_type e = Pkg NotFoundError
    ∧ getattr e "status_code" = Some (VInt 404).
Proof.
  apply (request_raises_classified_error Scenario.the_client "GET" "/item"
           None true (Scenario.client_on Scenario.not_found).2
           Scenario.not_found).
  - reflexivity.
  - simpl. lia.
Defined.

(** C3. Building the error of a response never raises. Its message is the
    [error] field when the body decodes to a JSON mapping that has one,
    else the [message] field of that mapping, else the string
    [API request failed with status <code>]; when the body is not JSON the
    message is that fallback and the raw text of the response is stored as
    the body of the error. *)
Theorem build_error_never_raises (response : Response) :
  ∃ e,
    _build_error response = Return e
    ∧ getattr e "message" = Some (described_message response)
    ∧ getattr e "body" = Some (described_body response).
Proof.
  eexists. split; [apply build_error_eq|].
  by rewrite call_class_message, call_class_body.
Qed.

(** The two readings of [described_message] and [described_body] that the
    specification spells out for a body that is not JSON. *)
Lemma not_json_degrades (response : Response) :
  json_result response = None →
  described_message response = fallback_message (status_code response)
  ∧ described_body response = VStr (text response).
Proof. unfold described_message, described_body. by intros ->. Qed.

(** C10. The error [request] raises for a failed response is an instance
    of [NewsRankError], of which the five other classes are subclasses; an
    [except NewsRankError] clause therefore catches it, and its [message],
    [status_code] and [body] attributes are set. *)
Theorem raised_error_is_a_NewsRankError
    (self : SyncClient.t) (method path : string)
    (params : option (gmap string Value)) (auth : bool) (σ : World)
    (response : Response) :
  answer σ (SyncClient._client self) (wire_of self method path params auth)
    = Some (Return response) →
  ¬ (200 ≤ status_code response ≤ 299) →
  ∃ e σ',
    SyncClient.request self method path params auth σ = (Raise e, σ')
    ∧ isinstance e (Pkg NewsRankError) = true
    ∧ (∀ A (handler : Instance → Exc A),
         try_except (Pkg NewsRankError) (Raise e) handler = handler e)
    ∧ is_Some (getattr e "message")
    ∧ is_Some (getattr e "status_code")
    ∧ is_Some (getattr e "body")
    ∧ ∀ kind, issubclass (Pkg kind) (Pkg NewsRankError) = true.
Proof.
  intros Hans Hfail.
  destruct (request_run _ _ _ _ _ _ _ Hans) as (σ' & Hrun & _).
  unfold described_outcome in Hrun. rewrite bool_decide_eq_false_2 in Hrun by done.
  eexists _, σ'. split; [exact Hrun|].
  assert (Hinst : ∀ k m s b,
             isinstance (call_class k m s b) (Pkg NewsRankError) = true).
  { intros. unfold isinstance. rewrite call_class_type.
    apply package_classes_derive. }
  split; [apply Hinst|].
  split; [intros A handler; simpl; by rewrite Hinst|].
  rewrite call_class_message, call_class_status_code, call_class_body.
  repeat split; eauto using package_classes_derive.
Qed.

Lemma raised_error_is_a_NewsRankError_witness :
  ∃ e σ',
    SyncClient.request Scenario.the_client "GET" "/stories/7" None true
      (Scenario.client_on Scenario.rate_limited).2 = (Raise e, σ')
    ∧ isinstance e (Pkg NewsRankError) = true
    ∧ (∀ A (handler : Instance → Exc A),
         try_except (Pkg NewsRankError) (Raise e) handler = handler e)
    ∧ is_Some (getattr e "message")
    ∧ is_Some (getattr e "status_code")
    ∧ is_Some (getattr e "body")
    ∧ ∀ kind, issubclass (Pkg kind) (Pkg NewsRankError) = true.
Proof.
  apply (raised_error_is_a_NewsRankError Scenario.the_client "GET"
           "/stories/7" None true (Scenario.client_on Scenario.rate_limited).2
           Scenario.rate_limited).
  - reflexivity.
  - simpl. lia.
Defined.

(** The concrete failures of the specification: a 429 carrying a JSON
    [error] field, and a 404 carrying plain text. *)
Example rate_limited_scenario :
  ∃ e,
    _build_error Scenario.rate_limited = Return e
    ∧ ob_type e = Pkg RateLimitError
    ∧ getattr e "message" = Some (VStr "rate limited")
    ∧ getattr e "status_code" = Some (VInt 429)
    ∧ getattr e "body" = Some (VDict {[ "error" := VStr "rate limited" ]}).
Proof. eexists. by split. Qed.

Example not_found_scenario :
  ∃ e,
    _build_error Scenario.not_found = Return e
    ∧ ob_type e = Pkg NotFoundError
    ∧ getattr e "message" = Some (VStr "API request failed with status 404")
    ∧ getattr e "status_code" = Some (VInt 404)
    ∧ getattr e "body" = Some (VStr "not found").
Proof. eexists. by split. Qed.

(* ------------------------------------------------------------------ *)
(** ** Successful responses *)

(** C5. For every response whose status lies in 200–299: when the status
    is 204 or the body is empty, [request] returns [None], whatever the
    JSON decoder would have made of the body; otherwise it returns what
    [response.json()] yields, as it is. *)
Theorem request_success_result
    (self : SyncClient.t) (method path : string)
    (params : option (gmap string Value)) (auth : bool) (σ : World)
    (response : Response) :
  answer σ (SyncClient._client self) (wire_of self method path params auth)
    = Some (Return response) →
  200 ≤ status_code response ≤ 299 →
  ∃ σ',
    SyncClient.request self method path params auth σ =
      (if bool_decide (status_code response = 204 ∨ content response = [])
       then Return VNone
       else Response_json response, σ').
Proof.
  intros Hans Hok.
  destruct (request_run _ _ _ _ _ _ _ Hans) as (σ' & Hrun & _).
  unfold described_outcome in Hrun. rewrite bool_decide_eq_true_2 in Hrun by done.
  by exists σ'.
Qed.

Lemma request_success_result_witness :
  ∃ σ',
    SyncClient.request Scenario.the_client "GET" "/stories/ranked"
      (Some {[ "limit" := VInt 5 ]}) true
      (Scenario.client_on Scenario.ranked_stories).2 =
      (Return (VDict {[ "items" :=
                          VList [VDict {[ "id" := VInt 1;
                                          "title" := VStr "A" ]}] ]}), σ').
Proof.
  apply (request_success_result Scenario.the_client "GET" "/stories/ranked"
           (Some {[ "limit" := VInt 5 ]}) true
           (Scenario.client_on Scenario.ranked_stories).2
           Scenario.ranked_stories).
  - reflexivity.
  - simpl. lia.
Defined.

(** A 204 yields [None] even though decoding its empty body would raise. *)
Example no_content_scenario :
  (SyncClient.request Scenario.the_client "GET" "/stats" None true
     (Scenario.client_on Scenario.no_content).2).1 = Return VNone
  ∧ Response_json Scenario.no_content = Raise JSONDecodeError.
Proof. done. Qed.

(* ------------------------------------------------------------------ *)
(** ** What goes on the wire *)

Lemma clean_params_lookup (params : gmap string Value) (k : string) (v : Value) :
  _clean_params params !! k = Some v ↔ params !! k = Some v ∧ v ≠ VNone.
Proof. unfold _clean_params. by rewrite map_lookup_filter_Some. Qed.

Lemma clean_params_drops_None (params : gmap string Value) (k : string) :
  params !! k = Some VNone → _clean_params params !! k = None.
Proof.
  intros Hk. unfold _clean_params. apply map_lookup_filter_None.
  right. intros v Hv. simpl. rewrite Hk in Hv. injection Hv as <-. tauto.
Qed.

(** C2. For every [params] mapping passed to [request], the query
    parameters of the request that is sent are exactly the entries whose
    value is not [None], each with its original value; an entry whose
    value is [None] is not among them. *)
Theorem request_sends_cleaned_params
    (self : SyncClient.t) (method path : string)
    (params : option (gmap string Value)) (auth : bool) (σ : World)
    (pool : Pool) :
  pools σ !! SyncClient._client self = Some pool →
  ∃ req,
    all_sent (SyncClient.request self method path params auth σ).2
        (SyncClient._client self)
      = Some (pool_sent pool ++ [req])
    ∧ (∀ k v,
         req_params req !! k = Some v
         ↔ default ∅ params !! k = Some v ∧ v ≠ VNone)
    ∧ (∀ k, default ∅ params !! k = Some VNone → req_params req !! k = None).
Proof.
  intros Hlive.
  destruct (request_run self method path params auth σ _
              (answer_live _ _ _ _ Hlive)) as (σ' & Hrun & _ & Hall & _).
  exists (wire_of self method path params auth).
  rewrite Hrun. simpl. split; [|split].
  - rewrite Hall. unfold all_sent. by rewrite Hlive.
  - intros k v. apply clean_params_lookup.
  - intros k. apply clean_params_drops_None.
Qed.

Lemma request_sends_cleaned_params_witness :
  ∃ req,
    all_sent
      (SyncClient.request Scenario.the_client "GET" "/items"
         (Some Scenario.listing_params) true
         (Scenario.client_on Scenario.no_content).2).2
      (SyncClient._client Scenario.the_client)
      = Some (pool_sent (Scenario.owned_pool Scenario.no_content) ++ [req])
    ∧ (∀ k v,
         req_params req !! k = Some v
         ↔ default ∅ (Some Scenario.listing_params) !! k = Some v ∧ v ≠ VNone)
    ∧ (∀ k,
         default ∅ (Some Scenario.listing_params) !! k = Some VNone →
         req_params req !! k = None).
Proof.
  apply (request_sends_cleaned_params Scenario.the_client "GET" "/items"
           (Some Scenario.listing_params) true
           (Scenario.client_on Scenario.no_content).2
           (Scenario.owned_pool Scenario.no_content)).
  reflexivity.
Defined.

(* ------------------------------------------------------------------ *)
(** ** Construction and the base URL *)

Lemma char_in_slash (c : ascii) : char_in c "/" = true ↔ c = "/"%char.
Proof.
  simpl. destruct (Ascii.eqb c "/") eqn:Hc.
  - apply Ascii.eqb_eq in Hc. by split.
  - apply Ascii.eqb_neq in Hc. by split.
Qed.

Lemma append_nil_l (s : string) : "" +:+ s = s.
Proof. reflexivity. Qed.

Lemma append_cons (c : ascii) (s t : string) :
  String c s +:+ t = String c (s +:+ t).
Proof. reflexivity. Qed.

(** What [rstrip] removed is a run of slashes. *)
Lemma rstrip_decompose (s : string) :
  ∃ n, s = rstrip "/" s +:+ slashes n.
Proof.
  induction s as [|c rest [n IH]]; [by exists O|].
  cbn [rstrip]. destruct (rstrip "/" rest) as [|d kept] eqn:Hr.
  - rewrite append_nil_l in IH. destruct (char_in c "/") eqn:Hc.
    + apply char_in_slash in Hc as ->. exists (S n).
      rewrite append_nil_l. simpl. congruence.
    + exists n. rewrite append_cons, append_nil_l. congruence.
  - exists n. rewrite append_cons. congruence.
Qed.

(** What [rstrip] kept does not end with a slash. *)
Lemma rstrip_no_trailing_slash (s : string) :
  last_char (rstrip "/" s) ≠ Some "/"%char.
Proof.
  induction s as [|c rest IH]; [done|].
  cbn [rstrip]. destruct (rstrip "/" rest) as [|d kept] eqn:Hr.
  - destruct (char_in c "/") eqn:Hc; [done|].
    simpl. intros [= ->]. by rewrite (proj2 (char_in_slash "/")) in Hc.
  - exact IH.
Qed.

Lemma SyncClient_init_eq (api_key : string) (base_url : option string)
    (timeout : Q) (httpx_client : option PoolId) (σ : World) :
  SyncClient.__init__ api_key base_url timeout httpx_client σ =
    (Return {| SyncClient._api_key := api_key;
               SyncClient._base_url :=
                 rstrip "/" (str_or base_url DEFAULT_BASE_URL);
               SyncClient._owns_client := bool_decide (httpx_client = None);
               SyncClient._client :=
                 default (fresh (dom (pools σ))) httpx_client |},
     match httpx_client with
     | Some _ => σ
     | None =>
         {| pools :=
              <[fresh (dom (pools σ)) :=
                  {| pool_timeout := timeout;
                     pool_headers := {[ "User-Agent" := USER_AGENT;
                                        "Accept" := "application/json" ]};
                     pool_transport := network σ;
                     pool_sent := [];
                     pool_closes := O |}]> (pools σ);
            network := network σ |}
     end).
Proof. by destruct httpx_client. Qed.

(** An override that is the empty string is falsy: the client falls back
    to the default base URL instead of storing the stripped override. *)
Lemma empty_override_falls_back :
  ∃ self σ1,
    SyncClient.__init__ "nrf_key" (Some "") DEFAULT_TIMEOUT None
      (Scenario.world (Scenario.respond Scenario.no_content))
      = (Return self, σ1)
    ∧ SyncClient._base_url self ≠ rstrip "/" "".
Proof. eexists _, _. split; [reflexivity|]. simpl. discriminate. Qed.

(** C9, amended. For every non-empty base-URL override supplied at
    construction the stored base URL is the override with its trailing
    slashes stripped; when no override is given, or the override is the
    empty string, it is the default base URL. The stored URL never ends
    with a slash and differs from the chosen one only by a run of trailing
    slashes. For every request, the URL sent is the stored base URL
    followed by the caller's path, verbatim. *)
Theorem stored_base_url_and_request_url
    (api_key : string) (base_url : option string) (timeout : Q)
    (httpx_client : option PoolId) (σ0 : World)
    (self : SyncClient.t) (method path : string)
    (params : option (gmap string Value)) (auth : bool) (σ : World)
    (pool : Pool) :
  pools σ !! SyncClient._client self = Some pool →
  (∃ built σ1,
     SyncClient.__init__ api_key base_url timeout httpx_client σ0
       = (Return built, σ1)
     ∧ SyncClient._base_url built =
         match base_url with
         | Some (String c rest) => rstrip "/" (String c rest)
         | _ => DEFAULT_BASE_URL
         end
     ∧ last_char (SyncClient._base_url built) ≠ Some "/"%char
     ∧ ∃ n, match base_url with
            | Some (String c rest) => String c rest
            | _ => DEFAULT_BASE_URL
            end = SyncClient._base_url built +:+ slashes n)
  ∧ ∃ req,
      last_sent (SyncClient.request self method path params auth σ).2
          (SyncClient._client self) = Some req
      ∧ req_url req = SyncClient._base_url self +:+ path.
Proof.
  intros Hlive. split.
  - eexists _, _. split; [apply SyncClient_init_eq|]. cbn [SyncClient._base_url].
    assert (Hchosen : str_or base_url DEFAULT_BASE_URL =
                      match base_url with
                      | Some (String c rest) => String c rest
                      | _ => DEFAULT_BASE_URL
                      end) by (by destruct base_url as [[|]|]).
    rewrite Hchosen. split; [by destruct base_url as [[|]|]|].
    split; [apply rstrip_no_trailing_slash|apply rstrip_decompose].
  - destruct (request_run self method path params auth σ _
                (answer_live _ _ _ _ Hlive)) as (σ' & Hrun & Hlast & _).
    exists (wire_of self method path params auth).
    rewrite Hrun. by split.
Qed.

Lemma stored_base_url_and_request_url_witness :
  ∃ req,
    last_sent
      (SyncClient.request Scenario.the_client "GET" "/stats" None true
         (Scenario.client_on Scenario.no_content).2).2
      (SyncClient._client Scenario.the_client) = Some req
    ∧ req_url req = SyncClient._base_url Scenario.the_client +:+ "/stats".
Proof.
  apply (stored_base_url_and_request_url "nrf_key" (Some "https://x.test/v1//")
           DEFAULT_TIMEOUT None
           (Scenario.world (Scenario.respond Scenario.no_content))
           Scenario.the_client "GET" "/stats" None true
           (Scenario.client_on Scenario.no_content).2
           (Scenario.owned_pool Scenario.no_content)).
  reflexivity.
Defined.

(* ------------------------------------------------------------------ *)
(** ** Façades *)

Lemma NewsRank_init_eq (api_key : string) (base_url : option string)
    (timeout : Q) (httpx_client : option PoolId) (σ : World) :
  ∃ c σ1,
    SyncClient.__init__ api_key base_url timeout httpx_client σ = (Return c, σ1)
    ∧ NewsRank.__init__ api_key base_url timeout httpx_client σ
        = (Return (facades_on c), σ1)
    ∧ SyncClient._api_key c = api_key.
Proof.
  eexists _, _. split; [apply SyncClient_init_eq|].
  unfold NewsRank.__init__, mbind, M_bind. by rewrite SyncClient_init_eq.
Qed.

Lemma NewsRank_init_inv (api_key : string) (base_url : option string)
    (timeout : Q) (httpx_client : option PoolId) (σ0 σ1 : World)
    (nr : NewsRank.t) :
  NewsRank.__init__ api_key base_url timeout httpx_client σ0 = (Return nr, σ1) →
  nr = facades_on (NewsRank._client nr)
  ∧ SyncClient._api_key (NewsRank._client nr) = api_key.
Proof.
  destruct (NewsRank_init_eq api_key base_url timeout httpx_client σ0)
    as (c & σ' & _ & -> & Hkey).
  by intros [= <- <-].
Qed.

Lemma append_inj_l (s t u : string) : s +:+ t = s +:+ u → t = u.
Proof.
  induction s as [|c s IH]; [done|].
  rewrite !append_cons. intros [= H]. by apply IH.
Qed.

(** Every façade method is one [GET] through the transport client; only
    [meta.version] asks for no authentication, and only it targets
    [/version]. *)
Lemma invoke_delegates (c : SyncClient.t) (call : FacadeCall) :
  ∃ path params,
    (∀ σ, invoke (facades_on c) call σ
          = SyncClient.request c "GET" path params (negb (is_version call)) σ)
    ∧ (path = "/version" ↔ is_version call = true).
Proof.
  destruct call; eexists _, _; (split; [reflexivity|]); simpl;
    split; try done; try discriminate.
Qed.

(** C6. A call with [auth] true carries the header
    [Authorization: Bearer <api_key>] and nothing else; a call with [auth]
    false carries no header at all. Among the façade methods only
    [meta.version] calls with [auth] false: the request it sends has no
    [Authorization] header, the request of every other method has it, and
    the requests to [/version] are exactly those of [meta.version]. *)
Theorem authorization_header
    (api_key : string) (base_url : option string) (timeout : Q)
    (httpx_client : option PoolId) (σ0 σ1 : World) (nr : NewsRank.t)
    (σ : World) (pool : Pool) :
  NewsRank.__init__ api_key base_url timeout httpx_client σ0 = (Return nr, σ1) →
  pools σ !! SyncClient._client (NewsRank._client nr) = Some pool →
  (∀ method path params auth,
     ∃ req,
       last_sent
         (SyncClient.request (NewsRank._client nr) method path params auth σ).2
         (SyncClient._client (NewsRank._client nr)) = Some req
       ∧ req_headers req =
           if auth then {[ "Authorization" := "Bearer " +:+ api_key ]} else ∅)
  ∧ (∀ call,
       ∃ req,
         last_sent (invoke nr call σ).2
           (SyncClient._client (NewsRank._client nr)) = Some req
         ∧ req_headers req !! "Authorization" =
             (if is_version call then None else Some ("Bearer " +:+ api_key))
         ∧ (req_url req
              = SyncClient._base_url (NewsRank._client nr) +:+ "/version"
            ↔ is_version call = true)).
Proof.
  intros Hinit Hlive.
  destruct (NewsRank_init_inv _ _ _ _ _ _ _ Hinit) as [Hnr Hkey].
  set (c := NewsRank._client nr) in *.
  assert (Hreq : ∀ method path params auth,
             last_sent (SyncClient.request c method path params auth σ).2
               (SyncClient._client c)
             = Some (wire_of c method path params auth)).
  { intros method path params auth.
    destruct (request_run c method path params auth σ _
                (answer_live _ _ _ _ Hlive)) as (σ' & Hrun & Hlast & _).
    by rewrite Hrun. }
  split.
  - intros method path params auth. eexists. split; [apply Hreq|].
    simpl. by rewrite Hkey.
  - intros call. rewrite Hnr.
    destruct (invoke_delegates c call) as (path & params & Hcall & Hpath).
    rewrite Hcall. eexists. split; [apply Hreq|]. simpl. rewrite Hkey.
    split.
    + destruct (is_version call); simpl; [done|]. by rewrite lookup_singleton_eq.
    + rewrite <- Hpath. split; [apply append_inj_l|by intros ->].
Qed.

Lemma authorization_header_witness :
  ∃ req,
    last_sent
      (invoke Scenario.the_newsrank meta_version
         (Scenario.client_on Scenario.no_content).2).2
      (SyncClient._client (NewsRank._client Scenario.the_newsrank)) = Some req
    ∧ req_headers req !! "Authorization" =
        (if is_version meta_version then None else Some ("Bearer " +:+ "nrf_key"))
    ∧ (req_url req
         = SyncClient._base_url (NewsRank._client Scenario.the_newsrank)
             +:+ "/version"
       ↔ is_version meta_version = true).
Proof.
  apply (authorization_header "nrf_key" None DEFAULT_TIMEOUT None
           (Scenario.world (Scenario.respond Scenario.no_content))
           (Scenario.client_on Scenario.no_content).2
           Scenario.the_newsrank
           (Scenario.client_on Scenario.no_content).2
           (Scenario.owned_pool Scenario.no_content)).
  - reflexivity.
  - reflexivity.
Defined.




(* ------------------------------------------------------------------ *)
(** ** The two flavours *)

Lemma async_request_eq (a : AsyncClient.t) (method path : string)
    (params : option (gmap string Value)) (auth : bool) (σ : World) :
  run_until_complete (AsyncClient.request a method path params auth) σ
  = SyncClient.request (as_sync a) method path params auth σ.
Proof.
  unfold AsyncClient.request, SyncClient.request, await_request. simpl.
  unfold mbind, M_bind.
  destruct (httpx_Client_request _ _ σ) as [[e|response] σ']; simpl; [done|].
  destruct (negb (is_success response)); simpl.
  - by destruct (_build_error response).
  - by destruct (_ || _).
Qed.

Lemma async_close_eq (a : AsyncClient.t) (σ : World) :
  run_until_complete (AsyncClient.close a) σ = SyncClient.close (as_sync a) σ.
Proof.
  unfold AsyncClient.close, SyncClient.close, await_aclose. simpl.
  destruct (AsyncClient._owns_client a); simpl; [|done].
  by destruct (httpx_Client_close _ σ).
Qed.

Lemma ainvoke_delegates (a : AsyncClient.t) (call : FacadeCall) :
  ∃ path params,
    ainvoke (async_facades_on a) call
      = AsyncClient.request a "GET" path params (negb (is_version call))
    ∧ ∀ σ, invoke (facades_on (as_sync a)) call σ
           = SyncClient.request (as_sync a) "GET" path params
               (negb (is_version call)) σ.
Proof. destruct call; by eexists _, _. Qed.

(** C4. The blocking and the suspending client are built alike from the
    same arguments, and for every method, path, parameters and auth flag,
    on every heap (hence for every answer of the pool), driving the
    suspending [request] to completion gives what the blocking [request]
    gives: the same returned value or the same raised error, and the same
    heap, that is the same request sent through the same pool. The same
    holds for [get], for [close] and for every façade method, on bound
    arguments and from any call site. *)
Theorem blocking_and_suspending_agree
    (api_key : string) (base_url : option string) (timeout : Q)
    (httpx_client : option PoolId) (σ0 : World)
    (a : AsyncClient.t) (method path : string)
    (params : option (gmap string Value)) (auth : bool) (σ : World) :
  (∃ built σ1,
     AsyncClient.__init__ api_key base_url timeout httpx_client σ0
       = (Return built, σ1)
     ∧ SyncClient.__init__ api_key base_url timeout httpx_client σ0
         = (Return (as_sync built), σ1)
     ∧ AsyncNewsRank.__init__ api_key base_url timeout httpx_client σ0
         = (Return (async_facades_on built), σ1)
     ∧ NewsRank.__init__ api_key base_url timeout httpx_client σ0
         = (Return (facades_on (as_sync built)), σ1))
  ∧ run_until_complete (AsyncClient.request a method path params auth) σ
    = SyncClient.request (as_sync a) method path params auth σ
  ∧ run_until_complete (AsyncClient.get a path params auth) σ
    = SyncClient.get (as_sync a) path params auth σ
  ∧ run_until_complete (AsyncClient.close a) σ
    = SyncClient.close (as_sync a) σ
  ∧ (∀ bound,
       run_until_complete (ainvoke (async_facades_on a) bound) σ
       = invoke (facades_on (as_sync a)) bound σ)
  ∧ ∀ site,
      run_until_complete (acall (async_facades_on a) site) σ
      = call (facades_on (as_sync a)) site σ.
Proof.
  assert (Hinvoke : ∀ bound σ',
            run_until_complete (ainvoke (async_facades_on a) bound) σ'
            = invoke (facades_on (as_sync a)) bound σ').
  { intros bound σ'.
    destruct (ainvoke_delegates a bound) as (path' & params' & -> & ->).
    apply async_request_eq. }
  split; [|repeat split].
  - destruct httpx_client as [p|]; eexists _, _; by repeat split.
  - apply async_request_eq.
  - apply async_request_eq.
  - apply async_close_eq.
  - intros bound. apply Hinvoke.
  - intros site. unfold acall, call, mbind, M_bind, pure. simpl.
    destruct (bind_arguments site) as [e|bound]; [done|]. apply Hinvoke.
Qed.

(** The specification's round trip: [GET /stories/ranked?limit=5] answered
    with one story comes back as that mapping, in both flavours. *)
Example ranked_stories_scenario :
  (SyncClient.request Scenario.the_client "GET" "/stories/ranked"
     (Some {[ "limit" := VInt 5 ]}) true
     (Scenario.client_on Scenario.ranked_stories).2).1
  = Return (VDict {[ "items" :=
                       VList [VDict {[ "id" := VInt 1;
                                       "title" := VStr "A" ]}] ]}).
Proof. reflexivity. Qed.

(* ------------------------------------------------------------------ *)
(** ** Ownership of the pool *)

Lemma request_closes (self : SyncClient.t) (method path : string)
    (params : option (gmap string Value)) (auth : bool) (σ : World)
    (q : PoolId) :
  closes (SyncClient.request self method path params auth σ).2 q = closes σ q.
Proof.
  rewrite request_eq. unfold mbind, M_bind.
  pose proof (client_request_closes σ (SyncClient._client self) q
                (wire_of self method path params auth)) as Hcl.
  by destruct (httpx_Client_request _ _ σ) as [[e|response] σ'].
Qed.

Lemma close_borrowed (self : SyncClient.t) (σ : World) :
  SyncClient._owns_client self = false →
  SyncClient.close self σ = (Return (), σ).
Proof. unfold SyncClient.close. by intros ->. Qed.

(** A client that does not own its pool closes no pool, whatever is done
    with it. *)
Lemma perform_closes (self : SyncClient.t) (op : ClientOp) (σ : World)
    (q : PoolId) :
  SyncClient._owns_client self = false →
  closes (perform self op σ) q = closes σ q.
Proof.
  intros Hb. destruct op; simpl.
  - apply request_closes.
  - apply request_closes.
  - by rewrite close_borrowed.
  - done.
  - unfold SyncClient.__exit__. by rewrite close_borrowed.
Qed.

Lemma perform_all_closes (self : SyncClient.t) (ops : list ClientOp)
    (σ : World) (q : PoolId) :
  SyncClient._owns_client self = false →
  closes (perform_all self ops σ) q = closes σ q.
Proof.
  intros Hb. revert σ. induction ops as [|op ops IH]; intros σ; [done|].
  unfold perform_all in *. simpl. rewrite IH. by apply perform_closes.
Qed.

(** A block of requests closes no pool, however it ends. *)
Lemma use_closes (self : SyncClient.t) (calls : list Call) (σ : World)
    (q : PoolId) :
  closes (use self calls σ).2 q = closes σ q.
Proof.
  revert σ. induction calls as [|c rest IH]; intros σ; [done|].
  simpl. unfold mbind at 1. unfold M_bind.
  pose proof (request_closes self (call_method c) (call_path c)
                (call_params c) (call_auth c) σ q) as Hreq.
  destruct (SyncClient.request _ _ _ _ _ σ) as [[e|v] σ']; [done|].
  simpl in Hreq. rewrite <- Hreq, <- (IH σ').
  unfold mbind, M_bind. by destruct (use self rest σ') as [[e|vs] σ''].
Qed.

(** The heap a [with] block leaves: the heap its body leaves, passed
    through [close]. *)
Lemma scoped_heap (self : SyncClient.t) (calls : list Call) (σ : World) :
  (with_statement SyncClient.__enter__ SyncClient.__exit__ self
     (λ c, use c calls) σ).2
  = (SyncClient.close self (use self calls σ).2).2.
Proof.
  unfold with_statement, SyncClient.__enter__, SyncClient.__exit__. simpl.
  destruct (use self calls σ) as [[e|vs] σ']; simpl;
    by destruct (SyncClient.close self σ') as [[e'|[]] σ''].
Qed.

Lemma fresh_pool_unused (σ : World) : pools σ !! fresh (dom (pools σ)) = None.
Proof. apply not_elem_of_dom, is_fresh. Qed.

(** C7. A pool supplied by the caller is never closed by the client: no
    sequence of [request], [get], [close], [__enter__] and [__exit__], and
    no [with] block, changes how often any pool has been closed. A pool
    the client created itself is new to the heap, and a [with] block
    (construct, a block of requests however it ends, exit) closes it
    exactly once and closes no other pool. *)
Theorem pool_closed_only_when_owned
    (api_key : string) (base_url : option string) (timeout : Q)
    (p : PoolId) (σ0 : World) (ops : list ClientOp) (calls : list Call) :
  (∃ self σ1,
     SyncClient.__init__ api_key base_url timeout (Some p) σ0
       = (Return self, σ1)
     ∧ SyncClient._client self = p
     ∧ (∀ q, closes (perform_all self ops σ1) q = closes σ0 q)
     ∧ (∀ q, closes (scoped api_key base_url timeout (Some p) calls σ0).2 q
             = closes σ0 q))
  ∧ (∃ self σ1,
       SyncClient.__init__ api_key base_url timeout None σ0
         = (Return self, σ1)
       ∧ pools σ0 !! SyncClient._client self = None
       ∧ closes σ1 (SyncClient._client self) = Some O
       ∧ ∀ q, closes (scoped api_key base_url timeout None calls σ0).2 q
              = if decide (q = SyncClient._client self) then Some 1%nat
                else closes σ0 q).
Proof.
  split.
  - eexists _, _. split; [apply SyncClient_init_eq|]. split; [done|]. split.
    + intros q. by apply perform_all_closes.
    + intros q. unfold scoped, mbind, M_bind. rewrite SyncClient_init_eq.
      rewrite scoped_heap, close_borrowed by done. apply use_closes.
  - eexists _, _. split; [apply SyncClient_init_eq|].
    cbn [SyncClient._client default]. set (new := fresh (dom (pools σ0))).
    split; [apply fresh_pool_unused|].
    assert (Hnew : ∀ σ, closes σ new = Some O →
              closes (httpx_Client_close new σ).2 new = Some 1%nat)
      by (intros σ; apply client_close_closes).
    split; [unfold closes; simpl; by rewrite lookup_insert_eq|].
    unfold scoped, mbind, M_bind. rewrite SyncClient_init_eq.
    rewrite scoped_heap. unfold SyncClient.close. simpl. fold new.
    intros q. case_decide as Hq.
    + subst q. apply Hnew. rewrite use_closes. unfold closes. simpl.
      by rewrite lookup_insert_eq.
    + rewrite client_close_other, use_closes by done.
      unfold closes. simpl. by rewrite lookup_insert_ne.
Qed.

(** The top-level client only forwards its lifecycle to the transport
    client. *)
Lemma toplevel_lifecycle_forwards (c : SyncClient.t) (σ : World) :
  NewsRank.close (facades_on c) σ = SyncClient.close c σ
  ∧ NewsRank.__exit__ (facades_on c) σ = SyncClient.__exit__ c σ.
Proof. done. Qed.

(** The two scoped teardowns of the specification, run: a pool of the
    client's own is closed once, a pool of the caller's is left open. *)
Example scoped_teardown_scenario :
  closes
    (scoped "nrf_key" None DEFAULT_TIMEOUT None
       [mkCall "GET" "/stats" None true; mkCall "GET" "/usage" None true]
       (Scenario.world (Scenario.respond Scenario.not_found))).2 1%positive
  = Some 1%nat
  ∧ closes
      (scoped "nrf_key" None DEFAULT_TIMEOUT (Some 1%positive)
         [mkCall "GET" "/stats" None true; mkCall "GET" "/usage" None true]
         (Scenario.world_with_pool (Scenario.respond Scenario.not_found))).2
      1%positive
    = Some O.
Proof. done. Qed.

(* ================================================================== *)
(** * Further properties of the code *)

(* ------------------------------------------------------------------ *)
(** ** What a request does to the heap *)

Lemma client_request_frame (σ : World) (p : PoolId) (req : Request) :
  let σ' := (httpx_Client_request p req σ).2 in
  (∀ q, all_sent σ' q =
          if decide (q = p) then (λ sent, sent ++ [req]) <$> all_sent σ q
          else all_sent σ q)
  ∧ (∀ q, pool_timeout <$> pools σ' !! q = pool_timeout <$> pools σ !! q)
  ∧ (∀ q, pool_headers <$> pools σ' !! q = pool_headers <$> pools σ !! q)
  ∧ (∀ q, is_Some (pools σ' !! q) ↔ is_Some (pools σ !! q))
  ∧ network σ' = network σ.
Proof.
  unfold httpx_Client_request, all_sent.
  destruct (pools σ !! p) as [pool|] eqn:Hp; simpl.
  - assert (Hother : ∀ q pool', q ≠ p →
                <[p := pool']> (pools σ) !! q = pools σ !! q)
      by (intros q pool' Hq; by rewrite lookup_insert_ne).
    split; [|split; [|split; [|split; [|done]]]]; intros q;
      destruct (decide (q = p)) as [->|Hq];
      rewrite ?lookup_insert_eq, ?Hp, ?Hother by done; done.
  - split; [|done]. intros q. case_decide; [subst; by rewrite Hp|done].
Qed.

(** The heap [request] leaves is the heap its one round trip leaves. *)
Lemma request_heap (self : SyncClient.t) (method path : string)
    (params : option (gmap string Value)) (auth : bool) (σ : World) :
  (SyncClient.request self method path params auth σ).2
  = (httpx_Client_request (SyncClient._client self)
       (wire_of self method path params auth) σ).2.
Proof.
  rewrite request_eq. unfold mbind, M_bind.
  by destruct (httpx_Client_request _ _ σ) as [[e|response] σ'].
Qed.

(** X13. Whatever comes back (a value, a classified error, a fault of the
    network), one call of [request] sends exactly one request, through the
    pool of the client: that pool's log grows by this one request, and
    nothing else in the heap changes (no other pool's log, no close count,
    no timeout, no default header, no pool created or dropped). *)
Theorem request_sends_once_and_touches_nothing_else
    (self : SyncClient.t) (method path : string)
    (params : option (gmap string Value)) (auth : bool) (σ : World) :
  ∃ req,
    (∀ q, all_sent (SyncClient.request self method path params auth σ).2 q =
            if decide (q = SyncClient._client self)
            then (λ sent, sent ++ [req]) <$> all_sent σ q
            else all_sent σ q)
    ∧ (∀ q, closes (SyncClient.request self method path params auth σ).2 q
            = closes σ q)
    ∧ (∀ q, pool_timeout
              <$> pools (SyncClient.request self method path params auth σ).2
                    !! q
            = pool_timeout <$> pools σ !! q)
    ∧ (∀ q, pool_headers
              <$> pools (SyncClient.request self method path params auth σ).2
                    !! q
            = pool_headers <$> pools σ !! q)
    ∧ (∀ q, is_Some
              (pools (SyncClient.request self method path params auth σ).2
                 !! q)
            ↔ is_Some (pools σ !! q))
    ∧ network (SyncClient.request self method path params auth σ).2
      = network σ.
Proof.
  exists (wire_of self method path params auth).
  rewrite request_heap.
  destruct (client_request_frame σ (SyncClient._client self)
              (wire_of self method path params auth))
    as (Hsent & Htime & Hhead & Hlive & Hnet).
  repeat split; try done; try apply Hlive.
  intros q. apply client_request_closes.
Qed.

(* ------------------------------------------------------------------ *)
(** ** Failures that are not classified *)

(** X1. A fault raised by the networking layer before any response exists
    is not wrapped: [request] raises that very exception, in both
    flavours, after the request has gone into the log of the pool. *)
Theorem transport_fault_propagates
    (a : AsyncClient.t) (method path : string)
    (params : option (gmap string Value)) (auth : bool) (σ : World)
    (e : Instance) :
  answer σ (AsyncClient._client a) (wire_of (as_sync a) method path params auth)
    = Some (Raise e) →
  ∃ σ',
    SyncClient.request (as_sync a) method path params auth σ = (Raise e, σ')
    ∧ run_until_complete (AsyncClient.request a method path params auth) σ
      = (Raise e, σ')
    ∧ all_sent σ' (AsyncClient._client a)
      = (λ sent, sent ++ [wire_of (as_sync a) method path params auth])
          <$> all_sent σ (AsyncClient._client a).
Proof.
  intros Hans.
  destruct (request_run (as_sync a) method path params auth σ _ Hans)
    as (σ' & Hrun & _ & Hall & _).
  exists σ'. rewrite async_request_eq. by repeat split.
Qed.

Lemma transport_fault_propagates_witness :
  ∃ σ',
    SyncClient.request
      (as_sync (AsyncClient.mk "nrf_key" DEFAULT_BASE_URL true 1%positive))
      "GET" "/stats" None true Scenario.offline
      = (Raise Scenario.ConnectError, σ')
    ∧ run_until_complete
        (AsyncClient.request
           (AsyncClient.mk "nrf_key" DEFAULT_BASE_URL true 1%positive)
           "GET" "/stats" None true) Scenario.offline
      = (Raise Scenario.ConnectError, σ')
    ∧ all_sent σ'
        (AsyncClient._client
           (AsyncClient.mk "nrf_key" DEFAULT_BASE_URL true 1%positive))
      = (λ sent,
           sent ++
           [wire_of
              (as_sync
                 (AsyncClient.mk "nrf_key" DEFAULT_BASE_URL true 1%positive))
              "GET" "/stats" None true])
          <$> all_sent Scenario.offline
                (AsyncClient._client
                   (AsyncClient.mk "nrf_key" DEFAULT_BASE_URL true 1%positive)).
Proof.
  apply (transport_fault_propagates
           (AsyncClient.mk "nrf_key" DEFAULT_BASE_URL true 1%positive)
           "GET" "/stats" None true Scenario.offline Scenario.ConnectError).
  reflexivity.
Defined.

Lemma external_classes_are_not_NewsRankErrors (qualname : string)
    (args : list Value) (attrs : gmap string Value) :
  isinstance (mkInstance (External qualname) args attrs) (Pkg NewsRankError)
  = false.
Proof. reflexivity. Qed.

(** X2. The success path decodes the body without a guard: a response in
    200–299, other than a 204, whose body is not empty and not JSON makes
    [request] raise the decoder's own exception. That exception is not a
    [NewsRankError], so an [except NewsRankError] clause lets it through. *)
Theorem undecodable_success_body_escapes
    (self : SyncClient.t) (method path : string)
    (params : option (gmap string Value)) (auth : bool) (σ : World)
    (response : Response) :
  answer σ (SyncClient._client self) (wire_of self method path params auth)
    = Some (Return response) →
  200 ≤ status_code response ≤ 299 →
  status_code response ≠ 204 →
  content response ≠ [] →
  json_result response = None →
  ∃ e σ',
    SyncClient.request self method path params auth σ = (Raise e, σ')
    ∧ isinstance e (Pkg NewsRankError) = false
    ∧ ∀ A (handler : Instance → Exc A),
        try_except (Pkg NewsRankError) (Raise e) handler = Raise e.
Proof.
  intros Hans Hok H204 Hbody Hjson.
  destruct (request_run _ _ _ _ _ _ _ Hans) as (σ' & Hrun & _).
  unfold described_outcome in Hrun.
  rewrite bool_decide_eq_true_2 in Hrun by done.
  rewrite bool_decide_eq_false_2 in Hrun by tauto.
  rewrite Hjson in Hrun.
  exists JSONDecodeError, σ'. split; [done|].
  split; [apply external_classes_are_not_NewsRankErrors|].
  intros A handler. unfold try_except.
  by rewrite (external_classes_are_not_NewsRankErrors "json.JSONDecodeError"
                [] ∅ : isinstance JSONDecodeError (Pkg NewsRankError) = false).
Qed.

Lemma undecodable_success_body_escapes_witness :
  ∃ e σ',
    SyncClient.request Scenario.the_client "GET" "/stats" None true
      (Scenario.client_on Scenario.garbled).2 = (Raise e, σ')
    ∧ isinstance e (Pkg NewsRankError) = false
    ∧ ∀ A (handler : Instance → Exc A),
        try_except (Pkg NewsRankError) (Raise e) handler = Raise e.
Proof.
  apply (undecodable_success_body_escapes Scenario.the_client "GET" "/stats"
           None true (Scenario.client_on Scenario.garbled).2 Scenario.garbled).
  - reflexivity.
  - simpl. lia.
  - simpl. lia.
  - discriminate.
  - reflexivity.
Defined.

Lemma issubclass_package (k1 k2 : ErrorKind) :
  issubclass (Pkg k1) (Pkg k2) = bool_decide (k2 = NewsRankError ∨ k2 = k1).
Proof.
  destruct k1, k2; vm_compute; try reflexivity.
Qed.

(** X14. An [except] clause for one class of the package catches the
    error built for a response exactly when that class is [NewsRankError]
    or the class the status selects: the classes other than the base are
    siblings, none derives from another. *)
Theorem except_clause_catches_by_kind (response : Response) :
  ∃ e,
    _build_error response = Return e
    ∧ ∀ (kind : ErrorKind) A (handler : Instance → Exc A),
        try_except (Pkg kind) (Raise e) handler =
          if bool_decide (kind = NewsRankError
                          ∨ kind = kind_of_status (status_code response))
          then handler e
          else Raise e.
Proof.
  eexists. split; [apply build_error_eq|].
  intros kind A handler. unfold try_except, isinstance.
  by rewrite call_class_type, issubclass_package.
Qed.

(* ------------------------------------------------------------------ *)
(** ** Cleaning parameters *)

(** X7. Cleaning a mapping a second time changes nothing; the cleaned
    mapping is part of the original, entry for entry; and cleaning leaves a
    mapping as it is exactly when no value in it is [None] (so zero, the
    empty string and [False] stay). *)
Theorem clean_params_is_a_projection (params : gmap string Value) :
  _clean_params (_clean_params params) = _clean_params params
  ∧ _clean_params params ⊆ params
  ∧ (_clean_params params = params ↔ ∀ k, params !! k ≠ Some VNone).
Proof.
  split; [|split].
  - apply map_eq. intros k. apply option_eq. intros v.
    rewrite !clean_params_lookup. tauto.
  - apply map_filter_subseteq.
  - split.
    + intros Heq k Hk. rewrite <- Heq in Hk.
      apply clean_params_lookup in Hk. tauto.
    + intros Hnone. apply map_eq. intros k. apply option_eq. intros v.
      rewrite clean_params_lookup. split; [tauto|].
      intros Hk. split; [done|]. intros ->. by apply (Hnone k).
Qed.

Lemma wire_of_absent_params (self : SyncClient.t) (method path : string)
    (params : gmap string Value) (auth : bool) :
  (∀ k v, params !! k = Some v → v = VNone) →
  wire_of self method path (Some params) auth
  = wire_of self method path None auth.
Proof.
  intros Hnone. unfold wire_of, wire_request. f_equal. simpl.
  rewrite map_filter_empty. apply map_eq. intros k. rewrite lookup_empty.
  apply map_lookup_filter_None. destruct (params !! k) as [v|] eqn:Hk; [|by left].
  right. intros v' [= <-]. simpl. rewrite (Hnone k v Hk). tauto.
Qed.

(** X6. A call whose parameters are all [None] (or an empty mapping) is
    the call without parameters: the same request goes out and the same
    result comes back, on the same heap. *)
Theorem absent_params_are_no_params
    (self : SyncClient.t) (method path : string)
    (params : gmap string Value) (auth : bool) (σ : World) :
  (∀ k v, params !! k = Some v → v = VNone) →
  SyncClient.request self method path (Some params) auth σ
  = SyncClient.request self method path None auth σ.
Proof.
  intros Hnone. rewrite !request_eq. unfold mbind, M_bind.
  by rewrite (wire_of_absent_params _ _ _ _ _ Hnone).
Qed.

Lemma absent_params_are_no_params_witness :
  SyncClient.request Scenario.the_client "GET" "/stories"
    (Some Scenario.absent_params) true (Scenario.client_on Scenario.no_content).2
  = SyncClient.request Scenario.the_client "GET" "/stories" None true
      (Scenario.client_on Scenario.no_content).2.
Proof.
  apply (absent_params_are_no_params Scenario.the_client "GET" "/stories"
           Scenario.absent_params true
           (Scenario.client_on Scenario.no_content).2).
  intros k v. unfold Scenario.absent_params.
  rewrite lookup_insert. case_decide; [congruence|].
  rewrite lookup_singleton. case_decide; congruence.
Defined.

(* ------------------------------------------------------------------ *)
(** ** A pool of the caller's, and closing *)

(** X3. A pool supplied by the caller is taken as it is: the constructor
    leaves the heap untouched and gives the same client whatever [timeout]
    is passed, so the timeout argument has no effect. Requests through the
    client leave the timeout and default headers of the pool as the caller
    set them, and the headers of a call never hold [User-Agent] or
    [Accept]: those two are installed only on a pool the client creates. *)
Theorem supplied_pool_is_taken_as_is
    (api_key : string) (base_url : option string) (p : PoolId) (σ : World)
    (pool : Pool) (method path : string)
    (params : option (gmap string Value)) (auth : bool) :
  pools σ !! p = Some pool →
  ∃ self,
    (∀ timeout,
       SyncClient.__init__ api_key base_url timeout (Some p) σ
       = (Return self, σ))
    ∧ SyncClient._client self = p
    ∧ SyncClient._owns_client self = false
    ∧ ∃ pool' req,
        pools (SyncClient.request self method path params auth σ).2 !! p
          = Some pool'
        ∧ pool_timeout pool' = pool_timeout pool
        ∧ pool_headers pool' = pool_headers pool
        ∧ pool_sent pool' = pool_sent pool ++ [req]
        ∧ req_headers req !! "User-Agent" = None
        ∧ req_headers req !! "Accept" = None.
Proof.
  intros Hlive. eexists. split; [intros timeout; apply SyncClient_init_eq|].
  split; [done|]. split; [done|].
  rewrite request_heap. unfold httpx_Client_request.
  cbn [SyncClient._client default from_option id].
  rewrite Hlive. simpl. rewrite lookup_insert_eq.
  eexists _, _. split; [done|]. simpl. repeat split.
  - by destruct auth.
  - by destruct auth.
Qed.

Lemma supplied_pool_is_taken_as_is_witness :
  ∃ self,
    (∀ timeout,
       SyncClient.__init__ "nrf_key" None timeout (Some 1%positive)
         (Scenario.world_with_pool (Scenario.respond Scenario.no_content))
       = (Return self,
          Scenario.world_with_pool (Scenario.respond Scenario.no_content)))
    ∧ SyncClient._client self = 1%positive
    ∧ SyncClient._owns_client self = false
    ∧ ∃ pool' req,
        pools
          (SyncClient.request self "GET" "/stats" None true
             (Scenario.world_with_pool (Scenario.respond Scenario.no_content))).2
          !! 1%positive = Some pool'
        ∧ pool_timeout pool'
          = pool_timeout
              (Scenario.callers_pool (Scenario.respond Scenario.no_content))
        ∧ pool_headers pool'
          = pool_headers
              (Scenario.callers_pool (Scenario.respond Scenario.no_content))
        ∧ pool_sent pool'
          = pool_sent
              (Scenario.callers_pool (Scenario.respond Scenario.no_content))
            ++ [req]
        ∧ req_headers req !! "User-Agent" = None
        ∧ req_headers req !! "Accept" = None.
Proof.
  apply (supplied_pool_is_taken_as_is "nrf_key" None 1%positive
           (Scenario.world_with_pool (Scenario.respond Scenario.no_content))
           (Scenario.callers_pool (Scenario.respond Scenario.no_content))
           "GET" "/stats" None true).
  reflexivity.
Defined.

Lemma perform_all_cons (self : SyncClient.t) (op : ClientOp)
    (ops : list ClientOp) (σ : World) :
  perform_all self (op :: ops) σ = perform_all self ops (perform self op σ).
Proof. reflexivity. Qed.

(** X4. Closing is not guarded: on a client that owns its pool every
    [close] and every [__exit__] closes the pool once more, and nothing
    else does. After any sequence of operations the pool has been closed
    as many times more as the sequence holds closing operations. *)
Theorem every_close_reaches_an_owned_pool
    (self : SyncClient.t) (ops : list ClientOp) (σ : World) (n : nat) :
  SyncClient._owns_client self = true →
  closes σ (SyncClient._client self) = Some n →
  closes (perform_all self ops σ) (SyncClient._client self)
  = Some (n + length (filter is_closing ops))%nat.
Proof.
  intros Hown. revert σ n. induction ops as [|op ops IH]; intros σ n Hn.
  - simpl. by rewrite Nat.add_0_r.
  - rewrite perform_all_cons.
    assert (Hclose : closes (SyncClient.close self σ).2 (SyncClient._client self)
                     = Some (S n)).
    { unfold SyncClient.close. rewrite Hown. by apply client_close_closes. }
    destruct op; cbn [perform];
      first [ rewrite filter_cons_True by done
            | rewrite filter_cons_False by (simpl; tauto) ].
    + apply IH. by rewrite request_closes.
    + apply IH. unfold SyncClient.get. by rewrite request_closes.
    + rewrite (IH _ (S n) Hclose). cbn [length]. f_equal. lia.
    + by apply IH.
    + unfold SyncClient.__exit__. rewrite (IH _ (S n) Hclose).
      cbn [length]. f_equal. lia.
Qed.

Lemma every_close_reaches_an_owned_pool_witness :
  closes
    (perform_all Scenario.the_client
       [DoEnter; DoGet "/stats" None true; DoClose; DoExit]
       (Scenario.client_on Scenario.no_content).2)
    (SyncClient._client Scenario.the_client)
  = Some (0 + length (filter is_closing
                        [DoEnter; DoGet "/stats" None true; DoClose; DoExit]))%nat.
Proof.
  apply (every_close_reaches_an_owned_pool Scenario.the_client
           [DoEnter; DoGet "/stats" None true; DoClose; DoExit]
           (Scenario.client_on Scenario.no_content).2 0%nat).
  - reflexivity.
  - reflexivity.
Defined.

(** X5. The client keeps no record of having been closed: after [close]
    on a client that owns its pool, a further [request] is built and sent
    through the pool like any other. Whether it succeeds is up to the
    pool, which is asked with its close count raised by one. *)
Theorem request_after_close_is_still_sent
    (self : SyncClient.t) (method path : string)
    (params : option (gmap string Value)) (auth : bool) (σ : World)
    (pool : Pool) :
  SyncClient._owns_client self = true →
  pools σ !! SyncClient._client self = Some pool →
  ∃ req,
    closes (SyncClient.close self σ).2 (SyncClient._client self)
      = Some (S (pool_closes pool))
    ∧ answer (SyncClient.close self σ).2 (SyncClient._client self) req
      = Some (pool_transport pool (S (pool_closes pool)) (pool_sent pool) req)
    ∧ all_sent
        (SyncClient.request self method path params auth
           (SyncClient.close self σ).2).2 (SyncClient._client self)
      = Some (pool_sent pool ++ [req])
    ∧ req_url req = SyncClient._base_url self +:+ path.
Proof.
  intros Hown Hlive. exists (wire_of self method path params auth).
  assert (Hclosed :
            (SyncClient.close self σ).2
            = {| pools :=
                   <[SyncClient._client self :=
                       {| pool_timeout := pool_timeout pool;
                          pool_headers := pool_headers pool;
                          pool_transport := pool_transport pool;
                          pool_sent := pool_sent pool;
                          pool_closes := S (pool_closes pool) |}]> (pools σ);
                 network := network σ |}).
  { unfold SyncClient.close, httpx_Client_close. by rewrite Hown, Hlive. }
  rewrite Hclosed.
  split; [unfold closes; simpl; by rewrite lookup_insert_eq|].
  split; [unfold answer; simpl; by rewrite lookup_insert_eq|].
  split; [|done].
  rewrite request_heap. unfold httpx_Client_request, all_sent.
  cbn [pools]. rewrite lookup_insert_eq. cbn [pools snd pool_sent].
  by rewrite lookup_insert_eq.
Qed.

Lemma request_after_close_is_still_sent_witness :
  ∃ req,
    closes (SyncClient.close Scenario.the_client
              (Scenario.client_on Scenario.no_content).2).2
      (SyncClient._client Scenario.the_client)
      = Some (S (pool_closes (Scenario.owned_pool Scenario.no_content)))
    ∧ answer (SyncClient.close Scenario.the_client
                (Scenario.client_on Scenario.no_content).2).2
        (SyncClient._client Scenario.the_client) req
      = Some (pool_transport (Scenario.owned_pool Scenario.no_content)
                (S (pool_closes (Scenario.owned_pool Scenario.no_content)))
                (pool_sent (Scenario.owned_pool Scenario.no_content)) req)
    ∧ all_sent
        (SyncClient.request Scenario.the_client "GET" "/stats" None true
           (SyncClient.close Scenario.the_client
              (Scenario.client_on Scenario.no_content).2).2).2
        (SyncClient._client Scenario.the_client)
      = Some (pool_sent (Scenario.owned_pool Scenario.no_content) ++ [req])
    ∧ req_url req = SyncClient._base_url Scenario.the_client +:+ "/stats".
Proof.
  apply (request_after_close_is_still_sent Scenario.the_client "GET" "/stats"
           None true (Scenario.client_on Scenario.no_content).2
           (Scenario.owned_pool Scenario.no_content)).
  - reflexivity.
  - reflexivity.
Defined.

(* ------------------------------------------------------------------ *)
(** ** URLs and paths *)

Lemma rstrip_slashes (n : nat) : rstrip "/" (slashes n) = "".
Proof.
  induction n as [|n IH]; [done|].
  cbn [slashes rstrip]. by rewrite IH.
Qed.

(** How [request] changes the logs: the wire request is appended to the
    log of the client's pool, and to no other. *)
Lemma request_logs (self : SyncClient.t) (method path : string)
    (params : option (gmap string Value)) (auth : bool) (σ : World)
    (q : PoolId) :
  all_sent (SyncClient.request self method path params auth σ).2 q =
    if decide (q = SyncClient._client self)
    then (λ sent, sent ++ [wire_of self method path params auth])
           <$> all_sent σ q
    else all_sent σ q.
Proof.
  rewrite request_heap.
  by destruct (client_request_frame σ (SyncClient._client self)
                 (wire_of self method path params auth)) as [Hsent _].
Qed.

(** X8. An override made only of slashes is stripped down to the empty
    string, which is then the stored base URL: the client does not fall
    back to the default, and the URL of every request is the bare path. *)
Theorem slash_only_override_gives_empty_base_url
    (n : nat) (api_key : string) (timeout : Q) (httpx_client : option PoolId)
    (σ0 : World) (method path : string)
    (params : option (gmap string Value)) (auth : bool) (σ : World) :
  ∃ self σ1 req,
    SyncClient.__init__ api_key (Some (slashes (S n))) timeout httpx_client σ0
      = (Return self, σ1)
    ∧ SyncClient._base_url self = ""
    ∧ req_url req = path
    ∧ ∀ q, all_sent (SyncClient.request self method path params auth σ).2 q =
             if decide (q = SyncClient._client self)
             then (λ sent, sent ++ [req]) <$> all_sent σ q
             else all_sent σ q.
Proof.
  eexists _, _, _. split; [apply SyncClient_init_eq|].
  cbn [SyncClient._base_url str_or slashes].
  change (String "/" (slashes n)) with (slashes (S n)).
  rewrite rstrip_slashes. split; [done|].
  split; [|intros q; apply request_logs]. done.
Qed.

(** Every façade path starts with a slash. *)
Lemma invoke_path_rooted (c : SyncClient.t) (call : FacadeCall) :
  ∃ path params rest,
    (∀ σ, invoke (facades_on c) call σ
          = SyncClient.request c "GET" path params (negb (is_version call)) σ)
    ∧ path = String "/" rest.
Proof. destruct call; by eexists _, _, _. Qed.



(* ------------------------------------------------------------------ *)
(** ** The top-level client in a [with] block *)

Lemma invoke_closes (c : SyncClient.t) (bound : FacadeCall) (σ : World)
    (q : PoolId) :
  closes (invoke (facades_on c) bound σ).2 q = closes σ q.
Proof.
  destruct (invoke_delegates c bound) as (path & params & -> & _).
  apply request_closes.
Qed.

Lemma call_closes (c : SyncClient.t) (site : CallSite) (σ : World)
    (q : PoolId) :
  closes (call (facades_on c) site σ).2 q = closes σ q.
Proof.
  unfold call, mbind, M_bind, pure.
  destruct (bind_arguments site) as [e|bound]; [done|]. apply invoke_closes.
Qed.

Lemma call_all_closes (c : SyncClient.t) (sites : list CallSite) (σ : World)
    (q : PoolId) :
  closes (call_all (facades_on c) sites σ).2 q = closes σ q.
Proof.
  revert σ. induction sites as [|site rest IH]; intros σ; [done|].
  simpl. unfold mbind at 1. unfold M_bind.
  pose proof (call_closes c site σ q) as Hcall.
  destruct (call (facades_on c) site σ) as [[e|v] σ']; [done|].
  simpl in Hcall. rewrite <- Hcall, <- (IH σ').
  unfold mbind, M_bind.
  by destruct (call_all (facades_on c) rest σ') as [[e|vs] σ''].
Qed.

Lemma toplevel_scoped_heap (c : SyncClient.t) (sites : list CallSite)
    (σ : World) :
  (with_statement NewsRank.__enter__ NewsRank.__exit__ (facades_on c)
     (λ nr, call_all nr sites) σ).2
  = (SyncClient.close c (call_all (facades_on c) sites σ).2).2.
Proof.
  unfold with_statement, NewsRank.__enter__, NewsRank.__exit__, NewsRank.close.
  simpl.
  destruct (call_all (facades_on c) sites σ) as [[e|vs] σ']; simpl;
    by destruct (SyncClient.close c σ') as [[e'|[]] σ''].
Qed.

(** X11. The top-level client forwards its lifecycle faithfully.
    [with NewsRank(...) as nr:] around any block of façade calls (calls
    that the signature rejects and calls that fail included) never closes
    a pool supplied by the caller, and closes a pool created by the client
    exactly once, leaving every other pool as it was. *)
Theorem toplevel_with_closes_only_what_it_owns
    (api_key : string) (base_url : option string) (timeout : Q)
    (p : PoolId) (sites : list CallSite) (σ0 : World) :
  (∀ q, closes
          (toplevel_scoped api_key base_url timeout (Some p) sites σ0).2 q
        = closes σ0 q)
  ∧ (∀ q, closes (toplevel_scoped api_key base_url timeout None sites σ0).2 q
          = if decide (q = fresh (dom (pools σ0))) then Some 1%nat
            else closes σ0 q).
Proof.
  split; intros q; unfold toplevel_scoped, mbind, M_bind.
  - destruct (NewsRank_init_eq api_key base_url timeout (Some p) σ0)
      as (c & σ1 & Hc & -> & _).
    rewrite SyncClient_init_eq in Hc. injection Hc as <- <-.
    rewrite toplevel_scoped_heap, close_borrowed by done.
    apply call_all_closes.
  - destruct (NewsRank_init_eq api_key base_url timeout None σ0)
      as (c & σ1 & Hc & -> & _).
    rewrite SyncClient_init_eq in Hc. injection Hc as <- <-.
    rewrite toplevel_scoped_heap. unfold SyncClient.close.
    cbn [SyncClient._owns_client SyncClient._client bool_decide decide_rel
           default from_option id].
    set (new := fresh (dom (pools σ0))). case_decide as Hq.
    + subst q. apply client_close_closes. rewrite call_all_closes.
      unfold closes. simpl. by rewrite lookup_insert_eq.
    + rewrite client_close_other, call_all_closes by done.
      unfold closes. simpl. by rewrite lookup_insert_ne.
Qed.

(* ------------------------------------------------------------------ *)
(** ** The suspending client in an [async with] block *)

(** Driving a coroutine that continues with [f] is driving it and then
    driving [f] on its value. *)
Lemma run_bind {A B} (c : Coro A) (f : A → Coro B) (σ : World) :
  run_until_complete (Coro_bind f c) σ =
    match run_until_complete c σ with
    | (Raise e, σ') => (Raise e, σ')
    | (Return a, σ') => run_until_complete (f a) σ'
    end.
Proof.
  revert σ. induction c as [[e|a]|p req k IH|p k IH]; intros σ; simpl;
    try done.
  - destruct (httpx_Client_request p req σ) as [r σ']. apply IH.
  - destruct (httpx_Client_close p σ) as [r σ']. apply IH.
Qed.

Lemma run_try {A} (c : Coro A) (σ : World) :
  run_until_complete (Coro_try c) σ =
    (Return (run_until_complete c σ).1, (run_until_complete c σ).2).
Proof.
  revert σ. induction c as [r|p req k IH|p k IH]; intros σ; simpl; try done.
  - destruct (httpx_Client_request p req σ) as [r σ']. apply IH.
  - destruct (httpx_Client_close p σ) as [r σ']. apply IH.
Qed.

Lemma run_ause (a : AsyncClient.t) (calls : list Call) (σ : World) :
  run_until_complete (ause a calls) σ = use (as_sync a) calls σ.
Proof.
  revert σ. induction calls as [|c rest IH]; intros σ; [done|].
  cbn [ause use]. unfold mbind at 1 3, Coro_mbind, M_bind.
  rewrite run_bind, async_request_eq.
  destruct (SyncClient.request _ _ _ _ _ σ) as [[e|v] σ']; [done|].
  unfold mbind, Coro_mbind, M_bind. rewrite run_bind, IH.
  by destruct (use (as_sync a) rest σ') as [[e|vs] σ''].
Qed.

Lemma async_with_eq (a : AsyncClient.t) (calls : list Call) (σ : World) :
  run_until_complete
    (async_with_statement AsyncClient.__aenter__ AsyncClient.__aexit__ a
       (λ c, ause c calls)) σ
  = with_statement SyncClient.__enter__ SyncClient.__exit__ (as_sync a)
      (λ c, use c calls) σ.
Proof.
  unfold async_with_statement, with_statement, AsyncClient.__aenter__,
    AsyncClient.__aexit__, SyncClient.__enter__, SyncClient.__exit__.
  unfold mbind, Coro_mbind. rewrite run_bind. simpl.
  rewrite run_bind, run_try, run_ause.
  destruct (use (as_sync a) calls σ) as [r σ']. cbn [fst snd].
  rewrite run_bind, async_close_eq.
  by destruct (SyncClient.close (as_sync a) σ') as [[e'|[]] σ''], r.
Qed.

(** X12. [async with AsyncClient(...) as c:] around a block of awaited
    requests, driven to completion, ends exactly as the blocking [with]
    block does: the same values or the same exception, and the same heap.
    A pool of the caller's is therefore never closed, and a pool of the
    client's own is closed exactly once, also when the block raises. *)
Theorem async_with_agrees_with_with
    (api_key : string) (base_url : option string) (timeout : Q)
    (httpx_client : option PoolId) (p : PoolId) (calls : list Call)
    (σ0 : World) :
  ascoped api_key base_url timeout httpx_client calls σ0
  = scoped api_key base_url timeout httpx_client calls σ0
  ∧ (∀ q, closes (ascoped api_key base_url timeout (Some p) calls σ0).2 q
          = closes σ0 q)
  ∧ (∀ q, closes (ascoped api_key base_url timeout None calls σ0).2 q
          = if decide (q = fresh (dom (pools σ0))) then Some 1%nat
            else closes σ0 q).
Proof.
  assert (Heq : ∀ h, ascoped api_key base_url timeout h calls σ0
                     = scoped api_key base_url timeout h calls σ0).
  { intros h. unfold ascoped, scoped, mbind, M_bind.
    destruct h as [p'|]; simpl; apply async_with_eq. }
  split; [apply Heq|]. rewrite !Heq.
  unfold scoped, mbind, M_bind. rewrite !SyncClient_init_eq, !scoped_heap.
  split; intros q.
  - rewrite close_borrowed by done. apply use_closes.
  - unfold SyncClient.close. simpl.
    set (new := fresh (dom (pools σ0))). case_decide as Hq.
    + subst q. apply client_close_closes. rewrite use_closes.
      unfold closes. simpl. by rewrite lookup_insert_eq.
    + rewrite client_close_other, use_closes by done.
      unfold closes. simpl. by rewrite lookup_insert_ne.
Qed.

(** X15. The suspending [request] has exactly one suspension point: it
    awaits the pool once and, whatever the pool answers, finishes without
    awaiting again (no retry, no second round trip). [close] awaits the
    pool once when the client owns it and not at all otherwise. *)
Theorem async_request_awaits_once
    (a : AsyncClient.t) (method path : string)
    (params : option (gmap string Value)) (auth : bool) :
  (∃ req k,
     AsyncClient.request a method path params auth
       = AwaitRequest (AsyncClient._client a) req k
     ∧ ∀ r, ∃ out, k r = Done out)
  ∧ AsyncClient.close a =
      if AsyncClient._owns_client a
      then AwaitClose (AsyncClient._client a) Done
      else Done (Return ()).
Proof.
  split; [|done].
  eexists _, _. split; [reflexivity|].
  intros [e|response]; simpl; [by eexists|].
  destruct (negb (is_success response)); simpl.
  - destruct (_build_error response); by eexists.
  - destruct (_ || _); by eexists.
Qed.
